(** * diameter_server.py: a shallow embedding and its properties

    The development follows [src/diameter_server.py] top to bottom:

    - Python values, byte strings and the [hex] codec of [str];
    - the socket of one accepted connection, as the scripts of what its
      successive [recv] and [send] calls do and the log of what was sent;
    - the interface of [libDiameter] (imported with [from libDiameter
      import *]; its code is not part of the server's file), as a class;
    - [DiameterMessage], the two response builders, [send_response] and
      [handle_request], over any implementation of that interface.

    Exceptions are values of [exn]: a computation of the monad [M] returns
    a [result], a value or a raised exception, and the world it leaves. The
    only exception the server catches is [socket.error] around [recv]; a
    [socket.error] raised by [send] is not caught. *)

From Stdlib Require Import ZArith NArith Ascii String List Lia.
From Stdlib Require Import Init.Byte.
From stdpp Require Import base option list gmap strings fin_maps.

Set Warnings "-register-all,-clear-no-such-hyp".

Local Open Scope string_scope.
Local Open Scope Z_scope.

(** ** Python values *)

(** The values [decodeAVP] hands back and [encodeAVP] accepts: integers,
    strings, and lists for grouped attributes. *)
Inductive pyvalue : Type :=
| PyInt (z : Z)
| PyStr (s : string)
| PyList (l : list pyvalue).

(** A raw byte string, as [recv] returns it and [send] takes it. *)
Abbreviation bytes := (list Byte.byte).

(** A [str] of hexadecimal digits: what [libDiameter] works on. *)
Abbreviation hex := string.

(** The exceptions that occur in the server's own code. *)
Inductive exn : Type :=
| KeyError (key : string)      (* [d[key]] on a dict without [key] *)
| TypeError (msg : string)     (* [s.decode('hex')] on a non-hex [s] *)
| SocketError.                 (* [socket.error], here from [send] *)

Inductive result (A : Type) : Type :=
| Ok (a : A)
| Raise (e : exn).
Arguments Ok {A} a.
Arguments Raise {A} e.

(** ** [str.encode("hex")] and [str.decode("hex")] *)

Module Hex.

Definition digit (n : N) : ascii :=
  nth (N.to_nat n)
      (list_ascii_of_string "0123456789abcdef") "0"%char.

(** The value of one hexadecimal digit, either case. *)
Definition value (c : ascii) : option N :=
  let n := N_of_ascii c in
  if ((48 <=? n) && (n <=? 57))%N then Some (n - 48)%N
  else if ((97 <=? n) && (n <=? 102))%N then Some (n - 87)%N
  else if ((65 <=? n) && (n <=? 70))%N then Some (n - 55)%N
  else None.

(** [data.encode("hex")]: two lower-case digits per byte. *)
Fixpoint encode (data : bytes) : hex :=
  match data with
  | [] => ""
  | b :: rest =>
      let n := Byte.to_N b in
      String (digit (n / 16)) (String (digit (n mod 16)) (encode rest))
  end.

(** The bytes of a string of hexadecimal digits, two digits for each byte;
    none for an odd length or a character that is not a hexadecimal digit. *)
Fixpoint decode_chars (s : list ascii) : option bytes :=
  match s with
  | [] => Some []
  | hi :: lo :: rest =>
      h ← value hi; l ← value lo;
      b ← Byte.of_N (h * 16 + l);
      tl ← decode_chars rest;
      Some (b :: tl)
  | [_] => None
  end.

(** [s.decode("hex")]: the length is checked first, then the digits, pair
    by pair; each failure is a [TypeError] with its own message. *)
Definition decode (s : hex) : result bytes :=
  if Nat.odd (String.length s) then Raise (TypeError "Odd-length string")
  else
    match decode_chars (list_ascii_of_string s) with
    | Some data => Ok data
    | None => Raise (TypeError "Non-hexadecimal digit found")
    end.

End Hex.

(** ** The socket of one connection *)

Definition BUFFER_SIZE : nat := 4096.

(** What one call of [connection.recv(BUFFER_SIZE)] does: it returns a byte
    string (empty when the peer has shut the stream down) or raises
    [socket.error]. *)
Inductive recv_event : Type :=
| RecvData (data : bytes)
| RecvError.

(** What one call of [connection.send(data)] does: it returns, or it raises
    [socket.error] (the peer has reset the connection, say). *)
Inductive send_event : Type :=
| SendOk
| SendError.

(** A connection: what its next [recv] calls will return, in order; what its
    next [send] calls will do, in order; what has been passed to the [send]
    calls that returned (oldest first); and whether [close] has been called.
    A [recv] past the end of its script never returns; a [send] past the end
    of its script returns. *)
Record connection : Type := Connection {
  incoming : list recv_event;
  outgoing : list send_event;
  sent : list bytes;
  closed : bool
}.

(** [c.send(data)]: the next event of the script decides; a call that raises
    leaves the log as it is. *)
Definition send (c : connection) (data : bytes) : result unit * connection :=
  match outgoing c with
  | SendError :: script =>
      (Raise SocketError,
       {| incoming := incoming c; outgoing := script;
          sent := sent c; closed := closed c |})
  | SendOk :: script =>
      (Ok tt,
       {| incoming := incoming c; outgoing := script;
          sent := (sent c ++ [data])%list; closed := closed c |})
  | [] =>
      (Ok tt,
       {| incoming := incoming c; outgoing := [];
          sent := (sent c ++ [data])%list; closed := closed c |})
  end.

Definition close (c : connection) : connection :=
  {| incoming := incoming c; outgoing := outgoing c;
     sent := sent c; closed := true |}.

Definition with_incoming (c : connection) (script : list recv_event) : connection :=
  {| incoming := script; outgoing := outgoing c;
     sent := sent c; closed := closed c |}.

(** ** Framing: lines 139-153 of [handle_request] *)

(** The inner loop [while 1: try: data += connection.recv(BUFFER_SIZE)
    except socket.error: break]. [None]: the loop never ends, because a
    [recv] never returns. *)
Fixpoint recv_more (data : bytes) (script : list recv_event)
  : option (bytes * list recv_event) :=
  match script with
  | [] => None
  | RecvError :: rest => Some (data, rest)
  | RecvData more :: rest => recv_more (data ++ more) rest
  end.

(** How one pass over lines 139-153 ends. *)
Inductive frame : Type :=
| Frame (data : bytes)   (* [send_response(connection, data)] is called *)
| Break.                 (* one of the two [break]s is taken *)

(** One pass over lines 139-153 on the script of the connection: the outcome
    and the rest of the script. [None]: a [recv] never returns. *)
Definition read_frame (script : list recv_event)
  : option (frame * list recv_event) :=
  match script with
  | [] => None
  | RecvError :: rest => Some (Break, rest)
  | RecvData data :: rest =>
      '(data, rest) ← (if Nat.eqb (length data) BUFFER_SIZE
                        then recv_more data rest
                        else Some (data, rest));
      if Nat.eqb (length data) 0
      then Some (Break, rest)
      else Some (Frame data, rest)
  end.

(** ** The interface of [libDiameter] *)

(** [HDRItem]: the header object of the library, with the attributes the
    server reads (lines 41-48) and writes (lines 68, 95). *)
Module HDRItem.
Record t : Type := Make {
  ver : Z;
  flags : Z;
  len : Z;
  cmd : Z;
  appId : Z;
  HobByHop : Z;
  EndToEnd : Z;
  msg : hex
}.

(** [H.cmd = c] *)
Definition set_cmd (H : t) (c : Z) : t :=
  Make (ver H) (flags H) (len H) c (appId H) (HobByHop H) (EndToEnd H) (msg H).

(** [H.HobByHop = h; H.EndToEnd = e] *)
Definition set_hops (H : t) (h e : Z) : t :=
  Make (ver H) (flags H) (len H) (cmd H) (appId H) h e (msg H).
End HDRItem.

(** The functions of [libDiameter] that the server calls. Their code is not
    in the server's file, so the server is modelled over any implementation
    of them; each is taken to return normally.

    - [HDRItem_new] is [HDRItem()], a new header object;
    - [stripHdr H data] is the header object after [stripHdr(H, data)], which
      fills it from the hex string [data];
    - [initializeHops s H] is what [initializeHops(H)] assigns to
      [H.HobByHop] and [H.EndToEnd] when the library's own state is [s],
      with the library's state afterwards. The call receives the header
      object and nothing else. *)
Class LibDiameter : Type := {
  hops : Type;
  HDRItem_new : HDRItem.t;
  stripHdr : HDRItem.t -> hex -> HDRItem.t;
  splitMsgAVPs : hex -> list hex;
  decodeAVP : hex -> string * pyvalue;
  encodeAVP : string -> pyvalue -> hex;
  createRes : HDRItem.t -> list hex -> hex;
  initializeHops : hops -> HDRItem.t -> hops * (Z * Z);
  dictCOMMANDname2code : string -> Z
}.

(** ** [DiameterMessage] *)

Module DiameterMessage.
Record t : Type := Make {
  version : Z;
  flags : Z;
  length : Z;
  command_code : Z;
  application_Id : Z;
  HobByHop : Z;
  EndToEnd : Z;
  hex_msg : hex;
  hex_avps : list hex;
  avps : gmap string pyvalue
}.

(** The same message with other identifiers. *)
Definition with_hops (m : t) (h e : Z) : t :=
  Make (version m) (flags m) (length m) (command_code m) (application_Id m)
       h e (hex_msg m) (hex_avps m) (avps m).
End DiameterMessage.

(** [l.append(x)] *)
Definition list_append {A} (l : list A) (x : A) : list A := (l ++ [x])%list.

Definition result_codes : gmap string Z :=
  <["DIAMETER_UNABLE_TO_COMPLY" := 5012]> (<["DIAMETER_SUCCESS" := 2001]> ∅).

Section Server.

Context {L : LibDiameter}.

(** What the worker of one connection can change: the state behind
    [initializeHops] and its socket. *)
Record world : Type := World {
  hops_state : hops;
  conn : connection
}.

(** A computation that may raise; the world it leaves is kept either way. *)
Definition M (A : Type) : Type := world -> result A * world.

#[local] Instance M_ret : MRet M := fun A a w => (Ok a, w).

#[local] Instance M_bind : MBind M := fun A B k m w =>
  match m w with
  | (Ok a, w') => k a w'
  | (Raise e, w') => (Raise e, w')
  end.

Definition raise {A} (e : exn) : M A := fun w => (Raise e, w).

(** [d[key]] *)
Definition getitem {V} (d : gmap string V) (key : string) : M V :=
  match d !! key with
  | Some v => mret v
  | None => raise (KeyError key)
  end.

(** [initializeHops(H)] *)
Definition call_initializeHops (H : HDRItem.t) : M HDRItem.t := fun w =>
  let '(s, (h, e)) := initializeHops (hops_state w) H in
  (Ok (HDRItem.set_hops H h e), World s (conn w)).

(** [socket_connection.send(data)]; the number of bytes that the call
    returns is not used (line 193). *)
Definition call_send (data : bytes) : M unit := fun w =>
  let '(r, c) := send (conn w) data in
  (r, World (hops_state w) c).

(** [s.decode('hex')] *)
Definition call_decode_hex (s : hex) : M bytes := fun w => (Hex.decode s, w).

(** [DiameterMessage.__init__], lines 40-54. *)
Definition new_DiameterMessage (request_data : HDRItem.t) : DiameterMessage.t :=
  let hex_msg := HDRItem.msg request_data in
  let hex_avps := splitMsgAVPs hex_msg in
  let avps :=
    foldl (fun (avps : gmap string pyvalue) hex_avp =>
             let '(field, value) := decodeAVP hex_avp in
             <[field := value]> avps)
          ∅ hex_avps in
  DiameterMessage.Make
    (HDRItem.ver request_data) (HDRItem.flags request_data)
    (HDRItem.len request_data) (HDRItem.cmd request_data)
    (HDRItem.appId request_data) (HDRItem.HobByHop request_data)
    (HDRItem.EndToEnd request_data) hex_msg hex_avps avps.

(** [invalid_request], lines 66-75: the header and the list of encoded
    attributes that line 79 passes to [createRes]. *)
Definition invalid_request_parts (diameter_request : DiameterMessage.t)
  : M (HDRItem.t * list hex) :=
  let response_header := HDRItem_new in
  let response_header :=
    HDRItem.set_cmd response_header
                    (DiameterMessage.command_code diameter_request) in
  response_header ← call_initializeHops response_header;
  let response_avps := [] in
  code ← getitem result_codes "DIAMETER_UNABLE_TO_COMPLY";
  let response_avps := list_append response_avps (encodeAVP "Result-Code" (PyInt code)) in
  mret (response_header, response_avps).

Definition invalid_request (diameter_request : DiameterMessage.t) : M hex :=
  '(response_header, response_avps) ← invalid_request_parts diameter_request;
  mret (createRes response_header response_avps).

(** [generate_capability_exchange_answer], lines 93-114: the header and the
    list of encoded attributes that line 117 passes to [createRes]. *)
Definition generate_capability_exchange_answer_parts
    (diameter_request : DiameterMessage.t) : M (HDRItem.t * list hex) :=
  let request_avps := DiameterMessage.avps diameter_request in
  let cea_header := HDRItem_new in
  let cea_header :=
    HDRItem.set_cmd cea_header (dictCOMMANDname2code "Capabilities-Exchange") in
  cea_header ← call_initializeHops cea_header;
  let cea_avps := [] in
  v ← getitem request_avps "Origin-Host";
  let cea_avps := list_append cea_avps (encodeAVP "Origin-Host" v) in
  v ← getitem request_avps "Origin-Realm";
  let cea_avps := list_append cea_avps (encodeAVP "Origin-Realm" v) in
  code ← getitem result_codes "DIAMETER_SUCCESS";
  let cea_avps := list_append cea_avps (encodeAVP "Result-Code" (PyInt code)) in
  v ← getitem request_avps "Vendor-Id";
  let cea_avps := list_append cea_avps (encodeAVP "Vendor-Id" v) in
  v ← getitem request_avps "Origin-State-Id";
  let cea_avps := list_append cea_avps (encodeAVP "Origin-State-Id" v) in
  v ← getitem request_avps "Supported-Vendor-Id";
  let cea_avps := list_append cea_avps (encodeAVP "Supported-Vendor-Id" v) in
  v ← getitem request_avps "Acct-Application-Id";
  let cea_avps := list_append cea_avps (encodeAVP "Acct-Application-Id" v) in
  mret (cea_header, cea_avps).

Definition generate_capability_exchange_answer
    (diameter_request : DiameterMessage.t) : M hex :=
  '(cea_header, cea_avps) ←
    generate_capability_exchange_answer_parts diameter_request;
  mret (createRes cea_header cea_avps).

(** The dict of line 183, and the lookup of lines 189-190:
    [cmd_code_responses.get(command_code, invalid_request)]. *)
Definition cmd_code_responses : gmap Z (DiameterMessage.t -> M hex) :=
  <[257 := generate_capability_exchange_answer]> ∅.

Definition select_response (command_code : Z) : DiameterMessage.t -> M hex :=
  default invalid_request (cmd_code_responses !! command_code).

(** [send_response], lines 179-197. *)
Definition send_response (request_info : bytes) : M DiameterMessage.t :=
  let request := HDRItem_new in
  let request := stripHdr request (Hex.encode request_info) in
  let diameter_request := new_DiameterMessage request in
  response ← select_response (DiameterMessage.command_code diameter_request)
                             diameter_request;
  data ← call_decode_hex response;
  _ ← call_send data;
  let response_data := HDRItem_new in
  let response_data := stripHdr response_data response in
  let diameter_sent_message := new_DiameterMessage response_data in
  mret diameter_sent_message.

(** How the worker of a connection ends. *)
Inductive outcome : Type :=
| Closed (w : world)              (* left the loop; [connection.close()] ran *)
| Blocked (w : world)             (* inside a [recv] that never returns *)
| Uncaught (e : exn) (w : world)  (* an exception ended the thread *)
| OutOfFuel.

Definition set_incoming (w : world) (script : list recv_event) : world :=
  World (hops_state w) (with_incoming (conn w) script).

Definition close_connection (w : world) : world :=
  World (hops_state w) (close (conn w)).

(** [handle_request], lines 137-161; one unit of fuel per turn of the outer
    loop. The two [logging.warning] calls write to the log only; the call of
    [dictCOMMANDcode2name] in the second is taken to return normally, like
    the other calls of the library. *)
Fixpoint handle_request (fuel : nat) (w : world) : outcome :=
  match fuel with
  | O => OutOfFuel
  | S fuel =>
      match read_frame (incoming (conn w)) with
      | None => Blocked (set_incoming w [])
      | Some (Break, rest) => Closed (close_connection (set_incoming w rest))
      | Some (Frame data, rest) =>
          match send_response data (set_incoming w rest) with
          | (Ok message_sent, w') => handle_request fuel w'
          | (Raise e, w') => Uncaught e w'
          end
      end
  end.

(** The worker, with fuel for every [recv] of the script. *)
Definition run_worker (w : world) : outcome :=
  handle_request (S (List.length (incoming (conn w)))) w.

End Server.

(** ** A small implementation of the interface

    A stand-in for [libDiameter], to run the server on concrete inputs: the
    header has the layout of the wire format (version 1 byte, length 3,
    flags 1, command code 3, application id 4, hop-by-hop 4, end-to-end 4),
    and an attribute is eight bytes, a four-byte code and a four-byte
    unsigned value. [initializeHops] counts up from its state. *)
Module SampleLib.

Definition Z_of_hex (s : hex) : Z :=
  fold_left (fun acc c => acc * 16 + Z.of_N (default 0%N (Hex.value c)))
            (list_ascii_of_string s) 0.

Fixpoint hex_of_Z (width : nat) (z : Z) : hex :=
  match width with
  | O => ""
  | S n => hex_of_Z n (z / 16) ++ String (Hex.digit (Z.to_N (z mod 16))) ""
  end.

Definition field (start size : nat) (s : hex) : Z :=
  Z_of_hex (substring start size s).

Definition drop (n : nat) (s : hex) : hex :=
  substring n (String.length s - n) s.

Definition stripHdr (H : HDRItem.t) (data : hex) : HDRItem.t :=
  HDRItem.Make (field 0 2 data) (field 8 2 data) (field 2 6 data)
               (field 10 6 data) (field 16 8 data) (field 24 8 data)
               (field 32 8 data) (drop 40 data).

Fixpoint split_blocks (fuel : nat) (s : hex) : list hex :=
  match fuel with
  | O => []
  | S fuel =>
      if Nat.leb (String.length s) 0 then []
      else substring 0 16 s :: split_blocks fuel (drop 16 s)
  end.

Definition splitMsgAVPs (s : hex) : list hex :=
  split_blocks (String.length s) s.

Definition dictionary : list (string * Z) :=
  [("Acct-Application-Id", 259); ("Origin-Host", 264);
   ("Supported-Vendor-Id", 265); ("Vendor-Id", 266); ("Result-Code", 268);
   ("Origin-State-Id", 278); ("Origin-Realm", 296)].

Definition code_of (name : string) : Z :=
  default 0 (snd <$> List.find (fun e => String.eqb (fst e) name) dictionary).

Definition name_of (code : Z) : string :=
  default "Unknown" (fst <$> List.find (fun e => Z.eqb (snd e) code) dictionary).

Definition decodeAVP (block : hex) : string * pyvalue :=
  (name_of (field 0 8 block), PyInt (field 8 8 block)).

Definition encodeAVP (name : string) (v : pyvalue) : hex :=
  hex_of_Z 8 (code_of name)
  ++ hex_of_Z 8 (match v with PyInt z => z | _ => 0 end).

Definition createRes (H : HDRItem.t) (avps : list hex) : hex :=
  let data := fold_left String.append avps "" in
  "01" ++ hex_of_Z 6 (Z.of_nat (String.length data) / 2 + 20)
  ++ hex_of_Z 2 (HDRItem.flags H) ++ hex_of_Z 6 (HDRItem.cmd H)
  ++ hex_of_Z 8 (HDRItem.appId H) ++ hex_of_Z 8 (HDRItem.HobByHop H)
  ++ hex_of_Z 8 (HDRItem.EndToEnd H) ++ data.

Definition initializeHops (s : Z) (H : HDRItem.t) : Z * (Z * Z) :=
  (s + 1, (s + 1, s + 1)).

Definition dictCOMMANDname2code (name : string) : Z :=
  if String.eqb name "Capabilities-Exchange" then 257 else 0.

#[export] Instance lib : LibDiameter :=
  Build_LibDiameter Z (HDRItem.Make 0 0 0 0 0 0 0 "")
                    stripHdr splitMsgAVPs decodeAVP encodeAVP createRes
                    initializeHops dictCOMMANDname2code.

(** The bytes a string of hexadecimal digits stands for. *)
Definition bytes_of (s : hex) : bytes :=
  default [] (Hex.decode_chars (list_ascii_of_string s)).

End SampleLib.

(** * Properties *)

(** ** Framing *)

(** Modelled from the spec: the length field of a message, as the wire
    format lays the header out (one byte of version, then three bytes of
    length, most significant first, the header included). The function of
    [libDiameter] that decodes it, [stripHdr], is not in the server's file. *)
Definition declared_length (message : bytes) : option nat :=
  match message with
  | _ :: b1 :: b2 :: b3 :: _ =>
      Some (N.to_nat (Byte.to_N b1 * 65536 + Byte.to_N b2 * 256 + Byte.to_N b3))
  | _ => None
  end.

(** Framing by the declared length: a message whose length field states its
    own size, delivered by successive reads in any non-empty chunks no larger
    than the buffer, is handed to [send_response] whole. *)
Definition frames_by_declared_length : Prop :=
  forall (message : bytes) (chunks : list bytes) (rest : list recv_event),
    declared_length message = Some (List.length message) ->
    concat chunks = message ->
    Forall (fun chunk => chunk <> [] /\ (List.length chunk <= BUFFER_SIZE)%nat) chunks ->
    exists rest',
      read_frame (map RecvData chunks ++ rest)%list = Some (Frame message, rest').

(** The inner loop appends every read up to the first [socket.error]. *)
Lemma recv_more_until_error (more : list bytes) :
  forall (data : bytes) (rest : list recv_event),
    recv_more data (map RecvData more ++ RecvError :: rest)%list
    = Some ((data ++ concat more)%list, rest).
Proof.
  induction more as [|chunk more IH]; intros data rest; simpl.
  - by rewrite app_nil_r.
  - rewrite IH. by rewrite <- app_assoc.
Qed.

(** Without a [socket.error] the inner loop does not end. *)
Lemma recv_more_no_error (more : list bytes) :
  forall data : bytes, recv_more data (map RecvData more) = None.
Proof.
  induction more as [|chunk more IH]; intros data; simpl; [done | apply IH].
Qed.

(** The inner loop consumes the script up to and including the error. *)
Lemma recv_more_shorter (script : list recv_event) :
  forall data data' rest,
    recv_more data script = Some (data', rest) ->
    (List.length rest < List.length script)%nat.
Proof.
  induction script as [|[more|] script IH]; intros data data' rest H; simpl in *.
  - discriminate.
  - apply IH in H. lia.
  - inversion H; subst. lia.
Qed.

Lemma read_frame_shorter (script : list recv_event) (f : frame)
    (rest : list recv_event) :
  read_frame script = Some (f, rest) ->
  (List.length rest < List.length script)%nat.
Proof.
  destruct script as [|[data|] script]; simpl; intros H.
  - discriminate.
  - destruct (Nat.eqb (List.length data) BUFFER_SIZE).
    + destruct (recv_more data script) as [[data' rest']|] eqn:E; simpl in H;
        [|discriminate].
      apply recv_more_shorter in E.
      destruct (Nat.eqb (List.length data') 0); inversion H; subst; lia.
    + simpl in H.
      destruct (Nat.eqb (List.length data) 0); inversion H; subst; lia.
  - inversion H; subst. lia.
Qed.

(** C1, amended: what is handed to [send_response] is decided by the sizes
    of the reads, not by the length field. A first read that is neither empty
    nor exactly [BUFFER_SIZE] long is handed over as it is. After a first read
    of exactly [BUFFER_SIZE] bytes, every following read is appended up to the
    first one that raises [socket.error], and their concatenation is handed
    over; while no read raises, nothing is handed over. *)
Theorem C1_framing_by_read_size (data : bytes) (script : list recv_event) :
  (data <> [] -> List.length data <> BUFFER_SIZE ->
   read_frame (RecvData data :: script) = Some (Frame data, script))
  /\ (List.length data = BUFFER_SIZE ->
      forall (more : list bytes) (rest : list recv_event),
        script = (map RecvData more ++ RecvError :: rest)%list ->
        read_frame (RecvData data :: script)
        = Some (Frame (data ++ concat more)%list, rest))
  /\ (List.length data = BUFFER_SIZE ->
      forall more : list bytes,
        script = map RecvData more ->
        read_frame (RecvData data :: script) = None).
Proof.
  split; [|split].
  - intros Hne Hsize. simpl.
    apply Nat.eqb_neq in Hsize. rewrite Hsize. simpl.
    destruct data; [done | reflexivity].
  - intros Hsize more rest ->. simpl.
    rewrite Hsize, Nat.eqb_refl, recv_more_until_error. simpl.
    rewrite length_app, Hsize. reflexivity.
  - intros Hsize more ->. simpl.
    by rewrite Hsize, Nat.eqb_refl, recv_more_no_error.
Qed.

(** A header-only request of twenty bytes, and its two halves. *)
Definition short_request : bytes :=
  SampleLib.bytes_of "010000148000010100000000000000070000000a".

Definition short_request_head : bytes := take 10 short_request.
Definition short_request_tail : bytes := drop 10 short_request.

(** C1, as stated, fails: a valid request of twenty bytes that arrives in two
    reads of ten bytes is handed to [send_response] after the first read,
    ten bytes long. *)
Lemma C1_counterexample : ~ frames_by_declared_length.
Proof.
  intros H.
  destruct (H short_request [short_request_head; short_request_tail] [])
    as [rest' Hframe].
  - reflexivity.
  - reflexivity.
  - assert (forall chunk : bytes,
               Nat.leb (List.length chunk) BUFFER_SIZE = true ->
               Nat.eqb (List.length chunk) 0 = false ->
               chunk <> [] /\ (List.length chunk <= BUFFER_SIZE)%nat) as Hchunk.
    { intros chunk Hle Hne. split.
      - intros ->. discriminate Hne.
      - by apply Nat.leb_le. }
    apply Forall_cons; split; [by apply Hchunk; vm_compute|].
    apply Forall_cons; split; [by apply Hchunk; vm_compute|].
    apply Forall_nil_2.
  - vm_compute in Hframe. discriminate.
Qed.

Lemma C1_framing_witness :
  read_frame [RecvData short_request_head; RecvData short_request_tail]
  = Some (Frame short_request_head, [RecvData short_request_tail])
  /\ read_frame [RecvData (repeat Byte.x00 BUFFER_SIZE);
                 RecvData short_request; RecvError]
     = Some (Frame (repeat Byte.x00 BUFFER_SIZE ++ concat [short_request])%list, []).
Proof.
  split.
  - apply (proj1 (C1_framing_by_read_size short_request_head
                    [RecvData short_request_tail])).
    + discriminate.
    + apply Nat.eqb_neq. vm_compute. reflexivity.
  - apply (proj1 (proj2 (C1_framing_by_read_size (repeat Byte.x00 BUFFER_SIZE)
                           [RecvData short_request; RecvError]))
             (repeat_length _ _) [short_request] []).
    reflexivity.
Defined.

(** ** The server over any implementation of the library *)

Section Properties.

Context {L : LibDiameter}.

Implicit Types (w : world) (req : DiameterMessage.t) (H : HDRItem.t).

(** *** The two dicts of constants *)

Lemma result_codes_success : result_codes !! "DIAMETER_SUCCESS" = Some 2001.
Proof. reflexivity. Qed.

Lemma result_codes_unable :
  result_codes !! "DIAMETER_UNABLE_TO_COMPLY" = Some 5012.
Proof. reflexivity. Qed.

Lemma cmd_code_responses_lookup (command_code : Z) :
  cmd_code_responses !! command_code
  = if decide (command_code = 257)
    then Some generate_capability_exchange_answer
    else None.
Proof.
  unfold cmd_code_responses. case_decide as Hc.
  - subst. apply lookup_insert_eq.
  - rewrite lookup_insert_ne by done. apply lookup_empty.
Qed.

(** C7: the lookup of lines 189-190 selects a builder for every integer
    command code: the capability-exchange builder for 257, the only key of
    the table, and [invalid_request] for every code that is not a key. *)
Theorem C7_dispatch_total (command_code : Z) :
  match cmd_code_responses !! command_code with
  | Some builder =>
      command_code = 257
      /\ builder = generate_capability_exchange_answer
      /\ select_response command_code = builder
  | None =>
      command_code <> 257
      /\ select_response command_code = invalid_request
  end.
Proof.
  unfold select_response. rewrite cmd_code_responses_lookup.
  case_decide; simpl; auto.
Qed.

(** C8: when the first read of a connection returns no bytes, the worker
    leaves its loop and closes the connection; nothing is sent, no [send] is
    called, and the state behind [initializeHops] is untouched. *)
Theorem C8_empty_read_closes (fuel : nat) (s : hops)
    (script : list recv_event) (sends : list send_event)
    (sent0 : list bytes) :
  handle_request (S fuel)
                 (World s (Connection (RecvData [] :: script) sends sent0 false))
  = Closed (World s (Connection script sends sent0 true))
  /\ run_worker (World s (Connection (RecvData [] :: script) sends sent0 false))
     = Closed (World s (Connection script sends sent0 true)).
Proof. split; reflexivity. Qed.

(** *** The attribute store of a [DiameterMessage] *)

(** The (name, value) pairs of a message, in the order of the wire: what
    [decodeAVP] returns on each block of [splitMsgAVPs]. *)
Definition decoded_entries (H : HDRItem.t) : list (string * pyvalue) :=
  decodeAVP <$> splitMsgAVPs (HDRItem.msg H).

(** The loop of lines 52-54 on pairs already decoded, from a dict [d]. *)
Definition store_entries (d : gmap string pyvalue)
    (entries : list (string * pyvalue)) : gmap string pyvalue :=
  foldl (fun d e => <[e.1 := e.2]> d) d entries.

Lemma avps_store_entries H :
  DiameterMessage.avps (new_DiameterMessage H)
  = store_entries ∅ (decoded_entries H).
Proof.
  unfold new_DiameterMessage, decoded_entries, store_entries; simpl.
  generalize (∅ : gmap string pyvalue).
  induction (splitMsgAVPs (HDRItem.msg H)) as [|block blocks IH]; intros d;
    simpl; [done|].
  rewrite <- IH. by destruct (decodeAVP block).
Qed.

Lemma store_entries_app d (l1 l2 : list (string * pyvalue)) :
  store_entries d (l1 ++ l2)%list = store_entries (store_entries d l1) l2.
Proof. apply foldl_app. Qed.

Lemma store_entries_absent (l : list (string * pyvalue)) :
  forall d (k : string), k ∉ l.*1 -> store_entries d l !! k = d !! k.
Proof.
  induction l as [|[k' v'] l IH]; intros d k Hk; simpl; [done|].
  rewrite fmap_cons, not_elem_of_cons in Hk. destruct Hk as [Hne Hk].
  rewrite IH by done. simpl in *. by rewrite lookup_insert_ne.
Qed.

Lemma store_entries_last d (l1 l2 : list (string * pyvalue)) k v :
  k ∉ l2.*1 -> store_entries d (l1 ++ (k, v) :: l2)%list !! k = Some v.
Proof.
  intros Hk. rewrite store_entries_app. simpl.
  rewrite store_entries_absent by done. apply lookup_insert_eq.
Qed.

Lemma store_entries_overwritten (l : list (string * pyvalue)) :
  forall d (k : string) (v v' : pyvalue),
    k ∈ l.*1 ->
    store_entries (<[k := v]> d) l = store_entries (<[k := v']> d) l.
Proof.
  induction l as [|[k2 v2] l IH]; intros d k v v' Hk; simpl in *.
  - by apply elem_of_nil in Hk.
  - destruct (decide (k2 = k)) as [->|Hne].
    + by rewrite !insert_insert_eq.
    + apply elem_of_cons in Hk as [Hk|Hk]; [congruence|].
      rewrite (insert_insert_ne _ k2 k v2 v), (insert_insert_ne _ k2 k v2 v')
        by done.
      by apply IH.
Qed.

Lemma store_entries_dom (l : list (string * pyvalue)) :
  forall d, dom (store_entries d l) = dom d ∪ list_to_set l.*1.
Proof.
  induction l as [|[k v] l IH]; intros d; simpl.
  - set_solver.
  - rewrite IH, dom_insert_L. set_solver.
Qed.

Lemma store_entries_from (l : list (string * pyvalue)) :
  forall d k v,
    store_entries d l !! k = Some v -> (k, v) ∈ l \/ d !! k = Some v.
Proof.
  induction l as [|[k' v'] l IH]; intros d k v Hk; simpl in *; [by right|].
  apply IH in Hk as [Hk|Hk].
  - left. by apply elem_of_cons; right.
  - destruct (decide (k' = k)) as [->|Hne].
    + rewrite lookup_insert_eq in Hk. inversion Hk; subst.
      left. apply elem_of_cons; by left.
    + rewrite lookup_insert_ne in Hk by done. by right.
Qed.

(** No entry of a message is lost from its attribute store: each decoded
    pair is what the store holds under its name. *)
Definition keeps_every_entry : Prop :=
  forall H (k : string) (v : pyvalue),
    (k, v) ∈ decoded_entries H ->
    DiameterMessage.avps (new_DiameterMessage H) !! k = Some v.

(** C3, amended: the decoded pairs are kept in a dict keyed by attribute
    name. Its keys are the names that occur in the message, one entry for
    each, and every pair it holds is a pair of the message; the encoded
    attributes are kept beside it, all of them, in the order of the wire. *)
Theorem C3_store_keyed_by_name H :
  dom (DiameterMessage.avps (new_DiameterMessage H))
  = list_to_set (decoded_entries H).*1
  /\ (forall (k : string) (v : pyvalue),
        DiameterMessage.avps (new_DiameterMessage H) !! k = Some v ->
        (k, v) ∈ decoded_entries H)
  /\ DiameterMessage.hex_avps (new_DiameterMessage H)
     = splitMsgAVPs (HDRItem.msg H)
  /\ decodeAVP <$> DiameterMessage.hex_avps (new_DiameterMessage H)
     = decoded_entries H.
Proof.
  rewrite avps_store_entries. repeat split.
  - rewrite store_entries_dom. set_solver.
  - intros k v Hk. apply store_entries_from in Hk as [Hk|Hk]; [done|].
    by rewrite lookup_empty in Hk.
Qed.

(** C9, amended: when several entries of a message have the same name, the
    attribute store maps the name to the value of the last of them, and the
    store is the same whatever the value of an earlier one was; the earlier
    values are not lost from the message, whose [hex_avps] decode to every
    entry. *)
Theorem C9_last_entry_wins H (l1 l2 : list (string * pyvalue))
    (k : string) (v : pyvalue) :
  decoded_entries H = (l1 ++ (k, v) :: l2)%list ->
  (k ∉ l2.*1 ->
   DiameterMessage.avps (new_DiameterMessage H) !! k = Some v)
  /\ (k ∈ l2.*1 ->
      forall H' (v' : pyvalue),
        decoded_entries H' = (l1 ++ (k, v') :: l2)%list ->
        DiameterMessage.avps (new_DiameterMessage H')
        = DiameterMessage.avps (new_DiameterMessage H))
  /\ decodeAVP <$> DiameterMessage.hex_avps (new_DiameterMessage H)
     = (l1 ++ (k, v) :: l2)%list.
Proof.
  intros Hentries. repeat split.
  - intros Hk. rewrite avps_store_entries, Hentries.
    by apply store_entries_last.
  - intros Hk H' v' Hentries'.
    rewrite !avps_store_entries, Hentries, Hentries', !store_entries_app.
    simpl. by apply store_entries_overwritten.
  - exact Hentries.
Qed.

(** *** The response builders *)

(** The header [H] after [initializeHops(H)] in the world [w], and the world
    after the call. *)
Definition stamped w H : HDRItem.t :=
  let ids := (initializeHops (hops_state w) H).2 in
  HDRItem.set_hops H ids.1 ids.2.

Definition after_hops w H : world :=
  World (initializeHops (hops_state w) H).1 (conn w).

Lemma call_initializeHops_eq H w :
  call_initializeHops H w = (Ok (stamped w H), after_hops w H).
Proof.
  unfold call_initializeHops, stamped, after_hops.
  by destruct (initializeHops (hops_state w) H) as [s [h e]].
Qed.

(** The headers the two builders start from: a new header object with its
    command code set (lines 66-68 and 93-95). *)
Definition invalid_header req : HDRItem.t :=
  HDRItem.set_cmd HDRItem_new (DiameterMessage.command_code req).

Definition cea_header : HDRItem.t :=
  HDRItem.set_cmd HDRItem_new (dictCOMMANDname2code "Capabilities-Exchange").

Lemma invalid_request_parts_eq req w :
  invalid_request_parts req w
  = (Ok (stamped w (invalid_header req),
         [encodeAVP "Result-Code" (PyInt 5012)]),
     after_hops w (invalid_header req)).
Proof.
  unfold invalid_request_parts, mbind, M_bind.
  rewrite call_initializeHops_eq.
  unfold getitem. rewrite result_codes_unable. reflexivity.
Qed.

Lemma invalid_request_eq req w :
  invalid_request req w
  = (Ok (createRes (stamped w (invalid_header req))
                   [encodeAVP "Result-Code" (PyInt 5012)]),
     after_hops w (invalid_header req)).
Proof.
  unfold invalid_request, mbind, M_bind.
  by rewrite invalid_request_parts_eq.
Qed.

(** The six attributes the capability-exchange builder reads from the
    request, in the order of lines 101-114. *)
Definition required_attributes : list string :=
  ["Origin-Host"; "Origin-Realm"; "Vendor-Id"; "Origin-State-Id";
   "Supported-Vendor-Id"; "Acct-Application-Id"].

(** The list of encoded attributes of the capability-exchange answer. *)
Definition cea_avps (v1 v2 v3 v4 v5 v6 : pyvalue) : list hex :=
  [encodeAVP "Origin-Host" v1; encodeAVP "Origin-Realm" v2;
   encodeAVP "Result-Code" (PyInt 2001); encodeAVP "Vendor-Id" v3;
   encodeAVP "Origin-State-Id" v4; encodeAVP "Supported-Vendor-Id" v5;
   encodeAVP "Acct-Application-Id" v6].

(** All six attributes are in the store of the request, with these values. *)
Definition has_required req (v1 v2 v3 v4 v5 v6 : pyvalue) : Prop :=
  DiameterMessage.avps req !! "Origin-Host" = Some v1
  /\ DiameterMessage.avps req !! "Origin-Realm" = Some v2
  /\ DiameterMessage.avps req !! "Vendor-Id" = Some v3
  /\ DiameterMessage.avps req !! "Origin-State-Id" = Some v4
  /\ DiameterMessage.avps req !! "Supported-Vendor-Id" = Some v5
  /\ DiameterMessage.avps req !! "Acct-Application-Id" = Some v6.

(** The builder either finds all six attributes and returns, or raises
    [KeyError] on the first one that the request does not have; the call of
    [initializeHops] has happened by then. *)
Lemma cea_parts_cases req w :
  (exists v1 v2 v3 v4 v5 v6,
      has_required req v1 v2 v3 v4 v5 v6
      /\ generate_capability_exchange_answer_parts req w
         = (Ok (stamped w cea_header, cea_avps v1 v2 v3 v4 v5 v6),
            after_hops w cea_header))
  \/ (exists k : string,
        k ∈ required_attributes
        /\ DiameterMessage.avps req !! k = None
        /\ generate_capability_exchange_answer_parts req w
           = (Raise (KeyError k), after_hops w cea_header)).
Proof.
  unfold generate_capability_exchange_answer_parts, mbind, M_bind.
  rewrite call_initializeHops_eq. fold cea_header.
  unfold getitem, has_required, required_attributes.
  rewrite result_codes_success.
  destruct (DiameterMessage.avps req !! "Origin-Host") as [v1|] eqn:E1;
    [|right; eexists; repeat split; [|exact E1]; set_solver].
  destruct (DiameterMessage.avps req !! "Origin-Realm") as [v2|] eqn:E2;
    [|right; eexists; repeat split; [|exact E2]; set_solver].
  destruct (DiameterMessage.avps req !! "Vendor-Id") as [v3|] eqn:E3;
    [|right; eexists; repeat split; [|exact E3]; set_solver].
  destruct (DiameterMessage.avps req !! "Origin-State-Id") as [v4|] eqn:E4;
    [|right; eexists; repeat split; [|exact E4]; set_solver].
  destruct (DiameterMessage.avps req !! "Supported-Vendor-Id") as [v5|] eqn:E5;
    [|right; eexists; repeat split; [|exact E5]; set_solver].
  destruct (DiameterMessage.avps req !! "Acct-Application-Id") as [v6|] eqn:E6;
    [|right; eexists; repeat split; [|exact E6]; set_solver].
  left. exists v1, v2, v3, v4, v5, v6. by repeat split.
Qed.

Lemma cea_parts_present req w v1 v2 v3 v4 v5 v6 :
  has_required req v1 v2 v3 v4 v5 v6 ->
  generate_capability_exchange_answer_parts req w
  = (Ok (stamped w cea_header, cea_avps v1 v2 v3 v4 v5 v6),
     after_hops w cea_header).
Proof.
  intros (E1 & E2 & E3 & E4 & E5 & E6).
  destruct (cea_parts_cases req w)
    as [(u1 & u2 & u3 & u4 & u5 & u6 & (F1 & F2 & F3 & F4 & F5 & F6) & ->)
       |(k & Hk & Hnone & _)].
  - congruence.
  - unfold required_attributes in Hk.
    repeat (apply elem_of_cons in Hk as [->|Hk]; [congruence|]).
    by apply elem_of_nil in Hk.
Qed.

Lemma cea_parts_absent req w (name : string) :
  name ∈ required_attributes ->
  DiameterMessage.avps req !! name = None ->
  exists k : string,
    k ∈ required_attributes
    /\ DiameterMessage.avps req !! k = None
    /\ generate_capability_exchange_answer_parts req w
       = (Raise (KeyError k), after_hops w cea_header).
Proof.
  intros Hname Hnone.
  destruct (cea_parts_cases req w)
    as [(u1 & u2 & u3 & u4 & u5 & u6 & (F1 & F2 & F3 & F4 & F5 & F6) & _)
       |Hraise]; [|done].
  unfold required_attributes in Hname.
  repeat (apply elem_of_cons in Hname as [->|Hname]; [congruence|]).
  by apply elem_of_nil in Hname.
Qed.

Lemma cea_of_parts req w :
  generate_capability_exchange_answer req w
  = match generate_capability_exchange_answer_parts req w with
    | (Ok (H, avps), w') => (Ok (createRes H avps), w')
    | (Raise e, w') => (Raise e, w')
    end.
Proof.
  unfold generate_capability_exchange_answer, mbind, M_bind.
  by destruct (generate_capability_exchange_answer_parts req w)
    as [[[H avps]|e] w'].
Qed.

(** C2, amended: in both builders the identifiers of the response header
    are the ones [initializeHops] assigns to the new header object, which
    carries a command code and nothing else of the request; a request with
    other identifiers gets the same response header, list of attributes and
    final world. The header and the list are the ones each builder hands to
    [createRes], whose result it returns, so the response is the same too. *)
Theorem C2_response_hops_from_library req w (h e : Z) :
  (exists avps,
      invalid_request_parts req w
      = (Ok (stamped w (invalid_header req), avps),
         after_hops w (invalid_header req)))
  /\ invalid_request_parts (DiameterMessage.with_hops req h e) w
     = invalid_request_parts req w
  /\ (forall H avps w',
        generate_capability_exchange_answer_parts req w = (Ok (H, avps), w') ->
        H = stamped w cea_header)
  /\ generate_capability_exchange_answer_parts
       (DiameterMessage.with_hops req h e) w
     = generate_capability_exchange_answer_parts req w
  /\ (exists avps,
        invalid_request req w
        = (Ok (createRes (stamped w (invalid_header req)) avps),
           after_hops w (invalid_header req))
        /\ invalid_request (DiameterMessage.with_hops req h e) w
           = invalid_request req w)
  /\ (forall H avps w',
        generate_capability_exchange_answer_parts req w = (Ok (H, avps), w') ->
        generate_capability_exchange_answer req w
        = (Ok (createRes (stamped w cea_header) avps), w')
        /\ generate_capability_exchange_answer
             (DiameterMessage.with_hops req h e) w
           = (Ok (createRes (stamped w cea_header) avps), w')).
Proof.
  assert (forall H avps w',
             generate_capability_exchange_answer_parts req w = (Ok (H, avps), w') ->
             H = stamped w cea_header) as Hcea.
  { intros H avps w' Hparts.
    destruct (cea_parts_cases req w)
      as [(v1 & v2 & v3 & v4 & v5 & v6 & _ & Heq)|(k & _ & _ & Heq)];
      rewrite Heq in Hparts; congruence. }
  split; [|split; [|split; [|split; [|split]]]].
  - eexists. apply invalid_request_parts_eq.
  - by rewrite !invalid_request_parts_eq.
  - exact Hcea.
  - reflexivity.
  - eexists. split; [apply invalid_request_eq | by rewrite !invalid_request_eq].
  - intros H avps w' Hparts.
    rewrite <- (Hcea H avps w' Hparts).
    assert (generate_capability_exchange_answer_parts
              (DiameterMessage.with_hops req h e) w = (Ok (H, avps), w'))
      as Hparts' by exact Hparts.
    split; rewrite cea_of_parts; [by rewrite Hparts | by rewrite Hparts'].
Qed.

(** C4: for a request with command code 257 whose store has the six
    required attributes, the selected builder returns a response made of a
    header and a list of encoded attributes that holds Result-Code 2001 and
    each of the six attributes with the value of the request. *)
Theorem C4_capability_exchange_echo req w (v1 v2 v3 v4 v5 v6 : pyvalue) :
  DiameterMessage.command_code req = 257 ->
  has_required req v1 v2 v3 v4 v5 v6 ->
  exists H avps w',
    generate_capability_exchange_answer_parts req w = (Ok (H, avps), w')
    /\ select_response (DiameterMessage.command_code req) req w
       = (Ok (createRes H avps), w')
    /\ encodeAVP "Result-Code" (PyInt 2001) ∈ avps
    /\ encodeAVP "Origin-Host" v1 ∈ avps
    /\ encodeAVP "Origin-Realm" v2 ∈ avps
    /\ encodeAVP "Vendor-Id" v3 ∈ avps
    /\ encodeAVP "Origin-State-Id" v4 ∈ avps
    /\ encodeAVP "Supported-Vendor-Id" v5 ∈ avps
    /\ encodeAVP "Acct-Application-Id" v6 ∈ avps.
Proof.
  intros Hcode Hreq.
  exists (stamped w cea_header), (cea_avps v1 v2 v3 v4 v5 v6),
         (after_hops w cea_header).
  pose proof (cea_parts_present req w _ _ _ _ _ _ Hreq) as Hparts.
  split; [exact Hparts|]. split.
  - rewrite Hcode. unfold select_response.
    rewrite cmd_code_responses_lookup. simpl.
    by rewrite cea_of_parts, Hparts.
  - unfold cea_avps. repeat split; set_solver.
Qed.

(** C5: for a request whose command code is not 257, the only key of the
    table, the selected builder returns a response made of a header with the
    command code of the request and of one encoded attribute, Result-Code
    5012. *)
Theorem C5_unknown_command req w :
  DiameterMessage.command_code req <> 257 ->
  cmd_code_responses !! DiameterMessage.command_code req = None
  /\ exists H w',
      invalid_request_parts req w
      = (Ok (H, [encodeAVP "Result-Code" (PyInt 5012)]), w')
      /\ select_response (DiameterMessage.command_code req) req w
         = (Ok (createRes H [encodeAVP "Result-Code" (PyInt 5012)]), w')
      /\ HDRItem.cmd H = DiameterMessage.command_code req.
Proof.
  intros Hcode.
  assert (cmd_code_responses !! DiameterMessage.command_code req = None)
    as Hnone.
  { rewrite cmd_code_responses_lookup. by case_decide. }
  split; [exact Hnone|].
  exists (stamped w (invalid_header req)), (after_hops w (invalid_header req)).
  repeat split.
  - apply invalid_request_parts_eq.
  - unfold select_response. rewrite Hnone. simpl. apply invalid_request_eq.
Qed.

(** C10: whenever the capability-exchange builder returns, what it returns
    is the result of [createRes] (line 117) on its header and a list of
    seven encoded attributes, in this order: Origin-Host, Origin-Realm,
    Result-Code, Vendor-Id, Origin-State-Id, Supported-Vendor-Id,
    Acct-Application-Id; Result-Code is 2001 and the others have the values
    of the store of the request. The builder returns exactly when lines
    93-114 get through, and it is the builder selected for command code
    257. *)
Theorem C10_capability_exchange_order req w :
  (forall (response : hex) w',
      generate_capability_exchange_answer req w = (Ok response, w') ->
      exists H v1 v2 v3 v4 v5 v6,
        has_required req v1 v2 v3 v4 v5 v6
        /\ response
           = createRes H
               [encodeAVP "Origin-Host" v1; encodeAVP "Origin-Realm" v2;
                encodeAVP "Result-Code" (PyInt 2001);
                encodeAVP "Vendor-Id" v3; encodeAVP "Origin-State-Id" v4;
                encodeAVP "Supported-Vendor-Id" v5;
                encodeAVP "Acct-Application-Id" v6]
        /\ generate_capability_exchange_answer_parts req w
           = (Ok (H, [encodeAVP "Origin-Host" v1; encodeAVP "Origin-Realm" v2;
                      encodeAVP "Result-Code" (PyInt 2001);
                      encodeAVP "Vendor-Id" v3; encodeAVP "Origin-State-Id" v4;
                      encodeAVP "Supported-Vendor-Id" v5;
                      encodeAVP "Acct-Application-Id" v6]), w'))
  /\ (forall H (avps : list hex) w',
        generate_capability_exchange_answer_parts req w = (Ok (H, avps), w') ->
        exists v1 v2 v3 v4 v5 v6,
          has_required req v1 v2 v3 v4 v5 v6
          /\ avps = [encodeAVP "Origin-Host" v1; encodeAVP "Origin-Realm" v2;
                     encodeAVP "Result-Code" (PyInt 2001);
                     encodeAVP "Vendor-Id" v3; encodeAVP "Origin-State-Id" v4;
                     encodeAVP "Supported-Vendor-Id" v5;
                     encodeAVP "Acct-Application-Id" v6]
          /\ List.length avps = 7%nat
          /\ generate_capability_exchange_answer req w
             = (Ok (createRes H avps), w')
          /\ select_response 257 req w = (Ok (createRes H avps), w')).
Proof.
  assert (select_response 257 req w
          = generate_capability_exchange_answer req w) as Hselect.
  { unfold select_response. by rewrite cmd_code_responses_lookup. }
  rewrite Hselect, cea_of_parts.
  destruct (cea_parts_cases req w)
    as [(v1 & v2 & v3 & v4 & v5 & v6 & Hreq & Heq)|(k & _ & _ & Heq)];
    rewrite Heq; (split; [intros response w' Hret | intros H avps w' Hparts]);
    try discriminate.
  - inversion Hret; subst.
    exists (stamped w cea_header), v1, v2, v3, v4, v5, v6.
    split; [exact Hreq | split; reflexivity].
  - inversion Hparts; subst.
    exists v1, v2, v3, v4, v5, v6.
    split; [exact Hreq | repeat split].
Qed.

(** *** The worker *)

(** [send_response] on a request for which the selected builder raises:
    the exception leaves [send_response] before anything is sent. *)
Lemma send_response_raises (data : bytes) w (e : exn) w' :
  let req := new_DiameterMessage (stripHdr HDRItem_new (Hex.encode data)) in
  select_response (DiameterMessage.command_code req) req w = (Raise e, w') ->
  send_response data w = (Raise e, w').
Proof.
  intros req Hraise. unfold send_response, mbind, M_bind.
  fold req. by rewrite Hraise.
Qed.

(** C6: a request with command code 257 whose store lacks one of the six
    required attributes makes the capability-exchange builder raise
    [KeyError] on an attribute the request does not have. Nothing catches
    it: it leaves [send_response] and ends the worker, with nothing sent and
    the connection not closed. *)
Theorem C6_missing_attribute_ends_worker (fuel : nat) w (data : bytes)
    (rest : list recv_event) req (name : string) :
  read_frame (incoming (conn w)) = Some (Frame data, rest) ->
  req = new_DiameterMessage (stripHdr HDRItem_new (Hex.encode data)) ->
  DiameterMessage.command_code req = 257 ->
  name ∈ required_attributes ->
  DiameterMessage.avps req !! name = None ->
  exists (k : string) w',
    k ∈ required_attributes
    /\ DiameterMessage.avps req !! k = None
    /\ generate_capability_exchange_answer req (set_incoming w rest)
       = (Raise (KeyError k), w')
    /\ send_response data (set_incoming w rest) = (Raise (KeyError k), w')
    /\ conn w' = Connection rest (outgoing (conn w)) (sent (conn w))
                            (closed (conn w))
    /\ handle_request (S fuel) w = Uncaught (KeyError k) w'.
Proof.
  intros Hframe Hreq Hcode Hname Hnone.
  destruct (cea_parts_absent req (set_incoming w rest) name Hname Hnone)
    as (k & Hk & Hknone & Hparts).
  exists k, (after_hops (set_incoming w rest) cea_header).
  assert (generate_capability_exchange_answer req (set_incoming w rest)
          = (Raise (KeyError k), after_hops (set_incoming w rest) cea_header))
    as Hcea by (by rewrite cea_of_parts, Hparts).
  assert (send_response data (set_incoming w rest)
          = (Raise (KeyError k), after_hops (set_incoming w rest) cea_header))
    as Hsend.
  { apply send_response_raises. rewrite <- Hreq, Hcode.
    unfold select_response. rewrite cmd_code_responses_lookup. simpl.
    exact Hcea. }
  repeat split; try done.
  simpl. by rewrite Hframe, Hsend.
Qed.

(** [send_response] leaves the script of the connection as it is. *)
Lemma send_response_incoming (data : bytes) w r w' :
  send_response data w = (r, w') ->
  incoming (conn w') = incoming (conn w).
Proof.
  unfold send_response, mbind, M_bind.
  set (req := new_DiameterMessage (stripHdr HDRItem_new (Hex.encode data))).
  assert (forall r0 w0,
             select_response (DiameterMessage.command_code req) req w = (r0, w0) ->
             incoming (conn w0) = incoming (conn w)) as Hselect.
  { intros r0 w0. unfold select_response.
    rewrite cmd_code_responses_lookup. case_decide; simpl.
    - rewrite cea_of_parts.
      destruct (cea_parts_cases req w)
        as [(v1 & v2 & v3 & v4 & v5 & v6 & _ & ->)|(k & _ & _ & ->)];
        intros Heq; inversion Heq; reflexivity.
    - rewrite invalid_request_eq. intros Heq; inversion Heq; reflexivity. }
  destruct (select_response (DiameterMessage.command_code req) req w)
    as [[response|e] w0] eqn:Hsel; specialize (Hselect _ _ eq_refl).
  - unfold call_decode_hex, call_send, send.
    destruct (Hex.decode response);
      [destruct (outgoing (conn w0)) as [|[|] script]|];
      intros Heq; inversion Heq; subst; simpl; done.
  - intros Heq; inversion Heq; subst. done.
Qed.

(** The worker stops within one turn of the loop for every [recv] of the
    script: [run_worker] has fuel to spare. *)
Lemma handle_request_fuel (fuel : nat) :
  forall w,
    (List.length (incoming (conn w)) < fuel)%nat ->
    handle_request fuel w <> OutOfFuel.
Proof.
  induction fuel as [|fuel IH]; intros w Hlen; [lia|].
  simpl. destruct (read_frame (incoming (conn w))) as [[[data|] rest]|] eqn:Hf;
    try discriminate.
  apply read_frame_shorter in Hf.
  destruct (send_response data (set_incoming w rest)) as [[m|e] w'] eqn:Hs;
    [|discriminate].
  apply IH. apply send_response_incoming in Hs. rewrite Hs. simpl. lia.
Qed.

Lemma run_worker_ends w : run_worker w <> OutOfFuel.
Proof. apply handle_request_fuel. lia. Qed.

End Properties.

(** ** Runs on the sample library *)

(** The claim of C2 for one builder in one world: the identifiers of the
    response header are those of the request. *)
Definition copies_hops {L : LibDiameter}
    (builder : DiameterMessage.t -> M (HDRItem.t * list hex)) (w : world)
  : Prop :=
  forall req H avps w',
    builder req w = (Ok (H, avps), w') ->
    HDRItem.HobByHop H = DiameterMessage.HobByHop req
    /\ HDRItem.EndToEnd H = DiameterMessage.EndToEnd req.

(** A request object with the six required attributes. *)
Definition full_store : gmap string pyvalue :=
  list_to_map
    [("Origin-Host", PyStr "peerA"); ("Origin-Realm", PyStr "realm.test");
     ("Vendor-Id", PyInt 0); ("Origin-State-Id", PyInt 1);
     ("Supported-Vendor-Id", PyInt 0); ("Acct-Application-Id", PyInt 0)].

Definition full_request : DiameterMessage.t :=
  DiameterMessage.Make 1 128 20 257 0 7 9 "" [] full_store.

Lemma full_request_required :
  forall L : LibDiameter,
    has_required full_request (PyStr "peerA") (PyStr "realm.test") (PyInt 0)
                 (PyInt 1) (PyInt 0) (PyInt 0).
Proof. intros L. unfold has_required. repeat split; reflexivity. Qed.

(** C2, as stated, fails for both builders, whatever the library does and
    whatever its state: the request with identifiers 7 and 9 and the same
    request with identifiers 1 and 1 get the same response header, so one of
    them does not get its own identifiers back. *)
Lemma C2_counterexample :
  ~ (exists (L : LibDiameter) (w : world),
        copies_hops invalid_request_parts w)
  /\ ~ (exists (L : LibDiameter) (w : world),
           copies_hops generate_capability_exchange_answer_parts w).
Proof.
  split; intros (L & w & Hcopies).
  - destruct (Hcopies full_request _ _ _
                (invalid_request_parts_eq full_request w)) as [H7 _].
    destruct (Hcopies (DiameterMessage.with_hops full_request 1 1) _ _ _
                (invalid_request_parts_eq _ w)) as [H1 _].
    simpl in H7, H1. unfold invalid_header in H7, H1. simpl in H7, H1.
    rewrite H7 in H1. discriminate.
  - destruct (Hcopies full_request _ _ _
                (cea_parts_present full_request w _ _ _ _ _ _
                   (full_request_required L))) as [H7 _].
    destruct (Hcopies (DiameterMessage.with_hops full_request 1 1) _ _ _
                (cea_parts_present _ w _ _ _ _ _ _
                   (full_request_required L))) as [H1 _].
    simpl in H7, H1. rewrite H7 in H1. discriminate.
Qed.

#[local] Existing Instance SampleLib.lib.

(** The header object [H] with another body. *)
Definition with_msg (H : HDRItem.t) (m : hex) : HDRItem.t :=
  HDRItem.Make (HDRItem.ver H) (HDRItem.flags H) (HDRItem.len H)
               (HDRItem.cmd H) (HDRItem.appId H) (HDRItem.HobByHop H)
               (HDRItem.EndToEnd H) m.

(** The second half of C9 as stated: the value of an entry that a later
    entry of the same name overwrites cannot be told from the
    [DiameterMessage]; a header object and the same header object with a
    body that differs in that value only give the same message object. *)
Definition forgets_earlier_entries {L : LibDiameter} : Prop :=
  forall (H : HDRItem.t) (m : hex) (l1 l2 : list (string * pyvalue))
         (k : string) (v v' : pyvalue),
    decoded_entries H = (l1 ++ (k, v) :: l2)%list ->
    decoded_entries (with_msg H m) = (l1 ++ (k, v') :: l2)%list ->
    k ∈ l2.*1 ->
    new_DiameterMessage (with_msg H m) = new_DiameterMessage H.

(** A header object whose body holds Supported-Vendor-Id twice, 10415 and
    then 13019, and the same with 5535 as the first value. *)
Definition repeated_header : HDRItem.t :=
  HDRItem.Make 1 128 36 257 0 7 9 "00000109000028af00000109000032db".

Definition repeated_header' : HDRItem.t :=
  with_msg repeated_header "000001090000159f00000109000032db".

Example repeated_header_entries :
  decoded_entries repeated_header
  = [("Supported-Vendor-Id", PyInt 10415); ("Supported-Vendor-Id", PyInt 13019)]
  /\ decoded_entries repeated_header'
     = [("Supported-Vendor-Id", PyInt 5535); ("Supported-Vendor-Id", PyInt 13019)].
Proof. split; reflexivity. Qed.

(** C3, as stated, fails: of the two Supported-Vendor-Id entries of the
    message the store keeps one, the second. *)
Lemma C3_counterexample : ~ keeps_every_entry (L := SampleLib.lib).
Proof.
  intros Hkeeps.
  specialize (Hkeeps repeated_header "Supported-Vendor-Id" (PyInt 10415)).
  assert (DiameterMessage.avps (new_DiameterMessage repeated_header)
            !! "Supported-Vendor-Id" = Some (PyInt 13019)) as Hlast
    by reflexivity.
  rewrite Hlast in Hkeeps.
  assert (Some (PyInt 13019) = Some (PyInt 10415)) as Habs.
  { apply Hkeeps. rewrite (proj1 repeated_header_entries).
    apply elem_of_cons. by left. }
  discriminate.
Qed.

(** C9, as stated, fails in its second half: the two header objects differ
    only in the value of the first Supported-Vendor-Id entry, which the
    second overwrites in the store; the stores are equal, the message
    objects are not, and the [hex_avps] of the first decode to both of its
    entries. *)
Lemma C9_counterexample :
  ~ forgets_earlier_entries (L := SampleLib.lib).
Proof.
  intros Hforgets.
  specialize (Hforgets repeated_header "000001090000159f00000109000032db"
                [] [("Supported-Vendor-Id", PyInt 13019)]
                "Supported-Vendor-Id" (PyInt 10415) (PyInt 5535)
                eq_refl eq_refl).
  assert (DiameterMessage.hex_msg
            (new_DiameterMessage
               (with_msg repeated_header "000001090000159f00000109000032db"))
          = DiameterMessage.hex_msg (new_DiameterMessage repeated_header))
    as Hmsg.
  { f_equal. apply Hforgets. apply elem_of_cons. by left. }
  discriminate Hmsg.
Qed.

Lemma C9_last_entry_witness :
  DiameterMessage.avps (new_DiameterMessage repeated_header)
    !! "Supported-Vendor-Id" = Some (PyInt 13019)
  /\ DiameterMessage.avps (new_DiameterMessage repeated_header')
     = DiameterMessage.avps (new_DiameterMessage repeated_header)
  /\ decodeAVP <$> DiameterMessage.hex_avps (new_DiameterMessage repeated_header)
     = [("Supported-Vendor-Id", PyInt 10415);
        ("Supported-Vendor-Id", PyInt 13019)].
Proof.
  assert ("Supported-Vendor-Id" ∈ [("Supported-Vendor-Id", PyInt 13019)].*1)
    as Hin by (apply elem_of_cons; by left).
  split; [|split].
  - exact (proj1 (C9_last_entry_wins repeated_header
                    [("Supported-Vendor-Id", PyInt 10415)] []
                    "Supported-Vendor-Id" (PyInt 13019)
                    (proj1 repeated_header_entries))
             (not_elem_of_nil _)).
  - exact (proj1 (proj2 (C9_last_entry_wins repeated_header
                           [] [("Supported-Vendor-Id", PyInt 13019)]
                           "Supported-Vendor-Id" (PyInt 10415)
                           (proj1 repeated_header_entries)))
             Hin repeated_header' (PyInt 5535)
             (proj2 repeated_header_entries)).
  - exact (proj2 (proj2 (C9_last_entry_wins repeated_header
                           [] [("Supported-Vendor-Id", PyInt 13019)]
                           "Supported-Vendor-Id" (PyInt 10415)
                           (proj1 repeated_header_entries)))).
Defined.

(** Three requests on the wire: a capability-exchange request with the six
    required attributes (values 1 to 6), one with Origin-Host and
    Origin-Realm only, and a header-only request with command code 9999. *)
Definition cer_request : bytes :=
  SampleLib.bytes_of
    ("0100004480000101000000000000000700000009"
     ++ "0000010800000001" ++ "0000012800000002" ++ "0000010a00000003"
     ++ "0000011600000004" ++ "0000010900000005" ++ "0000010300000006").

Definition partial_request : bytes :=
  SampleLib.bytes_of
    ("0100002480000101000000000000000700000009"
     ++ "0000010800000001" ++ "0000012800000002").

Definition unknown_request : bytes :=
  SampleLib.bytes_of "010000148000270f000000000000000700000009".

(** The message object [send_response] makes of received bytes. *)
Definition received (data : bytes) : DiameterMessage.t :=
  new_DiameterMessage (stripHdr HDRItem_new (Hex.encode data)).

(** A world in which the library's counter is at 100 and the connection has
    the given script of reads, no [send] that raises and nothing sent yet. *)
Definition start (script : list recv_event) : world :=
  World (100 : hops) (Connection script [] [] false).

Lemma C4_capability_exchange_witness :
  exists H avps w',
    generate_capability_exchange_answer_parts (received cer_request) (start [])
    = (Ok (H, avps), w')
    /\ encodeAVP "Result-Code" (PyInt 2001) ∈ avps
    /\ encodeAVP "Origin-Host" (PyInt 1) ∈ avps
    /\ encodeAVP "Acct-Application-Id" (PyInt 6) ∈ avps.
Proof.
  destruct (C4_capability_exchange_echo (received cer_request) (start [])
              (PyInt 1) (PyInt 2) (PyInt 3) (PyInt 4) (PyInt 5) (PyInt 6))
    as (H & avps & w' & Hparts & _ & Hrc & Hoh & _ & _ & _ & _ & Haa).
  - reflexivity.
  - unfold has_required. repeat split; reflexivity.
  - exists H, avps, w'. repeat split; assumption.
Defined.

Lemma C5_unknown_command_witness :
  exists H w',
    select_response 9999 (received unknown_request) (start [])
    = (Ok (createRes H [encodeAVP "Result-Code" (PyInt 5012)]), w')
    /\ HDRItem.cmd H = 9999.
Proof.
  destruct (C5_unknown_command (received unknown_request) (start []))
    as (_ & H & w' & _ & Hselect & Hcmd).
  - vm_compute. discriminate.
  - exists H, w'. split; [exact Hselect | exact Hcmd].
Defined.

Lemma C6_missing_attribute_witness :
  exists (k : string) w',
    handle_request 1 (start [RecvData partial_request]) = Uncaught (KeyError k) w'
    /\ conn w' = Connection [] [] [] false.
Proof.
  destruct (C6_missing_attribute_ends_worker 0 (start [RecvData partial_request])
              partial_request [] (received partial_request) "Vendor-Id")
    as (k & w' & _ & _ & _ & _ & Hconn & Hworker).
  - reflexivity.
  - reflexivity.
  - reflexivity.
  - unfold required_attributes. set_solver.
  - reflexivity.
  - exists k, w'. split; [exact Hworker | exact Hconn].
Defined.

Lemma C10_capability_exchange_witness :
  exists v1 v2 v3 v4 v5 v6,
    cea_avps (PyInt 1) (PyInt 2) (PyInt 3) (PyInt 4) (PyInt 5) (PyInt 6)
    = [encodeAVP "Origin-Host" v1; encodeAVP "Origin-Realm" v2;
       encodeAVP "Result-Code" (PyInt 2001); encodeAVP "Vendor-Id" v3;
       encodeAVP "Origin-State-Id" v4; encodeAVP "Supported-Vendor-Id" v5;
       encodeAVP "Acct-Application-Id" v6]
    /\ generate_capability_exchange_answer (received cer_request) (start [])
       = (Ok (createRes (stamped (start []) cea_header)
                        (cea_avps (PyInt 1) (PyInt 2) (PyInt 3) (PyInt 4)
                                  (PyInt 5) (PyInt 6))),
          after_hops (start []) cea_header).
Proof.
  destruct (proj2 (C10_capability_exchange_order (received cer_request)
                     (start []))
              (stamped (start []) cea_header)
              (cea_avps (PyInt 1) (PyInt 2) (PyInt 3) (PyInt 4) (PyInt 5)
                        (PyInt 6))
              (after_hops (start []) cea_header))
    as (v1 & v2 & v3 & v4 & v5 & v6 & _ & Havps & _ & Hbuilder & _).
  - reflexivity.
  - exists v1, v2, v3, v4, v5, v6. split; [exact Havps | exact Hbuilder].
Defined.

Lemma C2_response_hops_witness :
  invalid_request_parts
    (DiameterMessage.with_hops (received unknown_request) 1 1) (start [])
  = invalid_request_parts (received unknown_request) (start [])
  /\ HDRItem.Make 0 0 0 257 0 101 101 "" = stamped (start []) cea_header
  /\ DiameterMessage.HobByHop (received cer_request) = 7.
Proof.
  split; [|split].
  - exact (proj1 (proj2 (C2_response_hops_from_library
                           (received unknown_request) (start []) 1 1))).
  - apply (proj1 (proj2 (proj2 (C2_response_hops_from_library
                                  (received cer_request) (start []) 1 1)))
             (HDRItem.Make 0 0 0 257 0 101 101 "")
             (cea_avps (PyInt 1) (PyInt 2) (PyInt 3) (PyInt 4) (PyInt 5)
                       (PyInt 6))
             (after_hops (start []) cea_header)).
    reflexivity.
  - reflexivity.
Defined.

Lemma C3_store_witness :
  ("Supported-Vendor-Id", PyInt 13019) ∈ decoded_entries repeated_header
  /\ dom (DiameterMessage.avps (new_DiameterMessage repeated_header))
     = list_to_set (decoded_entries repeated_header).*1.
Proof.
  split.
  - apply (proj1 (proj2 (C3_store_keyed_by_name repeated_header))).
    reflexivity.
  - exact (proj1 (C3_store_keyed_by_name repeated_header)).
Defined.

(** The first scenario of the server, end to end: one capability-exchange
    request, then the peer closes. The worker answers once and closes; the
    answer carries the identifiers of the library's counter, 101 (hex 65),
    where the request had 7 and 9. *)
Example capability_exchange_run :
  match run_worker (start [RecvData cer_request; RecvData []]) with
  | Closed w => Some (closed (conn w), Hex.encode <$> sent (conn w))
  | _ => None
  end
  = Some (true,
          ["0100004c00000101000000000000006500000065"
           ++ "0000010800000001" ++ "0000012800000002" ++ "0000010c000007d1"
           ++ "0000010a00000003" ++ "0000011600000004" ++ "0000010900000005"
           ++ "0000010300000006"]).
Proof. vm_compute. reflexivity. Qed.

(** * Further properties *)

(** ** The [hex] codec of [str] *)

Module HexFacts.

(** The digit of a number below sixteen has that number as its value. *)
Lemma value_digit (n : N) : (n < 16)%N -> Hex.value (Hex.digit n) = Some n.
Proof.
  intros Hn.
  assert (exists k : nat, (k < 16)%nat /\ n = N.of_nat k) as (k & Hk & ->).
  { exists (N.to_nat n). split; lia. }
  do 16 (destruct k as [|k]; [reflexivity|]). lia.
Qed.

(** A value is below sixteen. *)
Lemma value_bound (c : ascii) (n : N) : Hex.value c = Some n -> (n < 16)%N.
Proof.
  unfold Hex.value.
  repeat match goal with
         | |- context [if ?b then _ else _] => destruct b eqn:?
         end; intros Heq; inversion Heq; subst;
    repeat match goal with
           | H : (_ && _)%bool = true |- _ => apply andb_true_iff in H as [? ?]
           | H : (_ <=? _)%N = true |- _ => apply N.leb_le in H
           end; lia.
Qed.

Lemma to_N_bound (b : Byte.byte) : (Byte.to_N b < 256)%N.
Proof.
  destruct (N.lt_ge_cases (Byte.to_N b) 256) as [Hlt|Hge]; [exact Hlt|].
  assert (Byte.of_N (Byte.to_N b) = None) as Hnone
    by (apply Byte.of_N_None_iff; lia).
  rewrite Byte.of_to_N in Hnone. discriminate.
Qed.

Lemma list_ascii_length (s : string) :
  List.length (list_ascii_of_string s) = String.length s.
Proof. induction s as [|c s IH]; simpl; [reflexivity | by rewrite IH]. Qed.

Lemma encode_chars (data : bytes) :
  Hex.decode_chars (list_ascii_of_string (Hex.encode data)) = Some data.
Proof.
  induction data as [|b data IH]; [reflexivity|].
  pose proof (to_N_bound b) as Hb.
  cbn [Hex.encode list_ascii_of_string Hex.decode_chars].
  rewrite (value_digit (Byte.to_N b / 16))
    by (apply N.Div0.div_lt_upper_bound; lia).
  rewrite (value_digit (Byte.to_N b mod 16)) by (apply N.mod_lt; lia).
  cbn [mbind option_bind].
  replace (Byte.to_N b / 16 * 16 + Byte.to_N b mod 16)%N with (Byte.to_N b)
    by (rewrite (N.div_mod (Byte.to_N b) 16) at 1; lia).
  rewrite Byte.of_to_N. cbn [mbind option_bind]. rewrite IH. reflexivity.
Qed.

(** Round trip: [data.encode("hex").decode("hex")] is [data]. *)
(** [data.encode("hex")] has two characters for each byte. *)
Lemma encode_length (data : bytes) :
  String.length (Hex.encode data) = (2 * List.length data)%nat.
Proof. induction data as [|b data IH]; simpl; [reflexivity | rewrite IH; lia]. Qed.

(** Round trip: [data.encode("hex").decode("hex")] is [data]. *)
Theorem hex_round_trip (data : bytes) :
  Hex.decode (Hex.encode data) = Ok data.
Proof.
  unfold Hex.decode.
  rewrite encode_length, Nat.odd_even, encode_chars. reflexivity.
Qed.

End HexFacts.

(** What [s.decode("hex")] accepts, decided two characters at a time. *)
Fixpoint hex_well_formed (s : list ascii) : bool :=
  match s with
  | [] => true
  | hi :: lo :: rest =>
      bool_decide (is_Some (Hex.value hi))
      && bool_decide (is_Some (Hex.value lo))
      && hex_well_formed rest
  | [_] => false
  end.

Lemma decode_chars_well_formed (n : nat) :
  forall s : list ascii,
    (List.length s <= n)%nat ->
    is_Some (Hex.decode_chars s) <-> hex_well_formed s = true.
Proof.
  induction n as [|n IH]; intros s Hlen.
  - destruct s; [|simpl in Hlen; lia]. simpl. split; [done | by eexists].
  - destruct s as [|hi [|lo rest]].
    + simpl. split; [done | by eexists].
    + simpl. split; [by intros [? ?] | done].
    + cbn [Hex.decode_chars hex_well_formed].
      assert (List.length rest <= n)%nat as Hrest by (simpl in Hlen; lia).
      specialize (IH rest Hrest).
      destruct (Hex.value hi) as [h|] eqn:Hhi; cbn [mbind option_bind].
      2:{ rewrite (bool_decide_eq_false_2 (is_Some None)) by (by intros [? ?]).
          simpl. split; [by intros [? ?] | done]. }
      destruct (Hex.value lo) as [l|] eqn:Hlo; cbn [mbind option_bind].
      2:{ rewrite (bool_decide_eq_false_2 (is_Some None)) by (by intros [? ?]).
          rewrite andb_false_r. simpl. split; [by intros [? ?] | done]. }
      rewrite !bool_decide_eq_true_2 by (by eexists). simpl.
      apply HexFacts.value_bound in Hhi, Hlo.
      destruct (Byte.of_N (h * 16 + l)) as [b|] eqn:Hb;
        [|apply Byte.of_N_None_iff in Hb; lia].
      cbn [mbind option_bind].
      destruct (Hex.decode_chars rest) as [tl|]; cbn [mbind option_bind].
      * split; [intros _; apply IH; by eexists | by eexists].
      * split; [by intros [? ?] |].
        intros Hwf. apply IH in Hwf. by destruct Hwf.
Qed.

Lemma well_formed_even_digits (n : nat) :
  forall s : list ascii,
    (List.length s <= n)%nat ->
    hex_well_formed s = true
    <-> Nat.Even (List.length s)
        /\ Forall (fun c => is_Some (Hex.value c)) s.
Proof.
  induction n as [|n IH]; intros s Hlen.
  - destruct s; [|simpl in Hlen; lia]. simpl.
    split; [intros _; split; [by exists 0%nat | constructor] | done].
  - destruct s as [|hi [|lo rest]].
    + simpl. split; [intros _; split; [by exists 0%nat | constructor] | done].
    + simpl. split; [done | intros [[k Hk] _]; lia].
    + cbn [hex_well_formed List.length].
      assert (List.length rest <= n)%nat as Hrest by (simpl in Hlen; lia).
      rewrite !andb_true_iff, !bool_decide_eq_true, (IH rest Hrest),
        !Forall_cons.
      split.
      * intros [[Hhi Hlo] [[k Hk] Hall]].
        split; [exists (S k); lia | done].
      * intros [[k Hk] (Hhi & Hlo & Hall)].
        repeat split; try done. exists (k - 1)%nat. lia.
Qed.

Lemma decode_chars_even_digits (s : hex) :
  is_Some (Hex.decode_chars (list_ascii_of_string s))
  <-> Nat.Even (String.length s)
      /\ Forall (fun c => is_Some (Hex.value c)) (list_ascii_of_string s).
Proof.
  rewrite <- HexFacts.list_ascii_length.
  rewrite <- (well_formed_even_digits _ _ (le_n _)).
  apply (decode_chars_well_formed _ _ (le_n _)).
Qed.

(** [s.decode("hex")] returns exactly when [s] has an even number of
    characters, all of them hexadecimal digits of either case. On a string
    of odd length it raises [TypeError] with the message [Odd-length
    string], whatever its characters; on a string of even length with a
    character that is no hexadecimal digit it raises [TypeError] with the
    message [Non-hexadecimal digit found]; it raises nothing else. *)
Theorem hex_decode_accepts (s : hex) :
  ((exists data, Hex.decode s = Ok data)
   <-> Nat.Even (String.length s)
       /\ Forall (fun c => is_Some (Hex.value c)) (list_ascii_of_string s))
  /\ (Hex.decode s = Raise (TypeError "Odd-length string")
      <-> Nat.Odd (String.length s))
  /\ (Hex.decode s = Raise (TypeError "Non-hexadecimal digit found")
      <-> Nat.Even (String.length s)
          /\ ~ Forall (fun c => is_Some (Hex.value c))
                      (list_ascii_of_string s))
  /\ (forall e : exn,
        Hex.decode s = Raise e ->
        e = TypeError "Odd-length string"
        \/ e = TypeError "Non-hexadecimal digit found").
Proof.
  pose proof (decode_chars_even_digits s) as Hchars.
  unfold Hex.decode.
  destruct (Nat.odd (String.length s)) eqn:Hodd.
  - apply Nat.odd_spec in Hodd.
    assert (~ Nat.Even (String.length s)) as Hnot
      by (intros Heven; exact (Nat.Even_Odd_False _ Heven Hodd)).
    split; [|split; [|split]].
    + split; [by intros [? ?] | by intros [? _]].
    + done.
    + split; [discriminate | by intros [? _]].
    + intros e He. inversion He. by left.
  - assert (Nat.Even (String.length s)) as Heven.
    { apply Nat.even_spec. by rewrite <- Nat.negb_odd, Hodd. }
    assert (~ Nat.Odd (String.length s)) as Hnot
      by (intros Hodd'; exact (Nat.Even_Odd_False _ Heven Hodd')).
    destruct (Hex.decode_chars (list_ascii_of_string s)) as [data|].
    + assert (Forall (fun c => is_Some (Hex.value c)) (list_ascii_of_string s))
        as Hdigits by (apply Hchars; by eexists).
      split; [|split; [|split]].
      * split; [done | by eexists].
      * split; [discriminate | done].
      * split; [discriminate | by intros [_ ?]].
      * intros e He. discriminate.
    + assert (~ Forall (fun c => is_Some (Hex.value c)) (list_ascii_of_string s))
        as Hdigits.
      { intros Hall. destruct (proj2 Hchars (conj Heven Hall)) as [? ?].
        discriminate. }
      split; [|split; [|split]].
      * split; [by intros [? ?] | by intros [_ ?]].
      * split; [discriminate | done].
      * done.
      * intros e He. inversion He. by right.
Qed.

(** ** Framing, continued *)

(** The bytes of the reads of a script, in order; a read that raises
    [socket.error] brings none. *)
Definition received_bytes (script : list recv_event) : bytes :=
  List.concat
    (List.map (fun e => match e with RecvData data => data | RecvError => [] end)
              script).

Lemma recv_more_conserves (script : list recv_event) :
  forall (data data' : bytes) (rest : list recv_event),
    recv_more data script = Some (data', rest) ->
    exists consumed,
      script = (consumed ++ rest)%list
      /\ data' = (data ++ received_bytes consumed)%list.
Proof.
  induction script as [|[more|] script IH]; intros data data' rest Hloop;
    simpl in Hloop.
  - discriminate.
  - apply IH in Hloop as (consumed & -> & ->).
    exists (RecvData more :: consumed). split; [reflexivity|].
    unfold received_bytes. simpl. by rewrite <- app_assoc.
  - inversion Hloop; subst. exists [RecvError]. split; [reflexivity|].
    unfold received_bytes. simpl. by rewrite app_nil_r.
Qed.

(** One pass of the framing loses and invents nothing: the reads it consumes
    are a non-empty front of the script, a frame is the concatenation of
    their bytes and is never empty, and a [break] is taken only when they
    brought no byte. *)
Theorem read_frame_conserves (script : list recv_event) (f : frame)
    (rest : list recv_event) :
  read_frame script = Some (f, rest) ->
  exists consumed,
    script = (consumed ++ rest)%list
    /\ consumed <> []
    /\ match f with
       | Frame data => data = received_bytes consumed /\ data <> []
       | Break => received_bytes consumed = []
       end.
Proof.
  destruct script as [|[data|] script]; simpl; intros Hframe.
  - discriminate.
  - destruct (Nat.eqb (List.length data) BUFFER_SIZE) eqn:Hfull.
    + destruct (recv_more data script) as [[data' rest']|] eqn:Hloop;
        simpl in Hframe; [|discriminate].
      apply recv_more_conserves in Hloop as (consumed & -> & ->).
      apply Nat.eqb_eq in Hfull.
      assert (Nat.eqb (List.length (data ++ received_bytes consumed)%list) 0
              = false) as Hne.
      { apply Nat.eqb_neq. rewrite length_app, Hfull. unfold BUFFER_SIZE. lia. }
      rewrite Hne in Hframe. inversion Hframe; subst.
      exists (RecvData data :: consumed). repeat split; try done.
      intros Hnil. rewrite Hnil in Hne. discriminate.
    + simpl in Hframe.
      destruct (Nat.eqb (List.length data) 0) eqn:Hempty;
        inversion Hframe; subst; exists [RecvData data];
        unfold received_bytes; simpl; rewrite app_nil_r.
      * apply Nat.eqb_eq in Hempty. destruct data; [done | discriminate].
      * repeat split; try done. intros ->. discriminate.
  - inversion Hframe; subst. by exists [RecvError].
Qed.

Lemma read_frame_conserves_witness :
  exists consumed,
    [RecvData short_request_head; RecvData short_request_tail]
    = (consumed ++ [RecvData short_request_tail])%list
    /\ short_request_head = received_bytes consumed.
Proof.
  destruct (read_frame_conserves
              [RecvData short_request_head; RecvData short_request_tail]
              (Frame short_request_head) [RecvData short_request_tail])
    as (consumed & Hsplit & _ & Hdata & _).
  - reflexivity.
  - exists consumed. split; [exact Hsplit | exact Hdata].
Defined.

(** ** The server over any implementation of the library, continued *)

Section MoreProperties.

Context {L : LibDiameter}.

Implicit Types (w : world) (req : DiameterMessage.t) (H : HDRItem.t).

(** *** The attribute store *)

(** When no attribute name repeats in a message, the store keeps every
    decoded entry under its name and has as many entries as the message. *)
Theorem store_keeps_distinct_names H :
  NoDup (decoded_entries H).*1 ->
  (forall (k : string) (v : pyvalue),
      (k, v) ∈ decoded_entries H ->
      DiameterMessage.avps (new_DiameterMessage H) !! k = Some v)
  /\ size (DiameterMessage.avps (new_DiameterMessage H))
     = List.length (decoded_entries H).
Proof.
  intros Hnodup. rewrite avps_store_entries. split.
  - intros k v Hin.
    apply list_elem_of_split in Hin as (l1 & l2 & Hsplit).
    rewrite Hsplit in Hnodup |- *.
    apply store_entries_last.
    rewrite fmap_app, fmap_cons in Hnodup.
    apply NoDup_app in Hnodup as (_ & _ & Hnodup).
    by apply NoDup_cons in Hnodup as [Hk _].
  - rewrite <- size_dom, store_entries_dom, dom_empty_L, (left_id_L ∅ (∪)).
    rewrite size_list_to_set by done. by rewrite length_fmap.
Qed.

Lemma size_list_to_set_le (names : list string) :
  (size (list_to_set names : gset string) <= List.length names)%nat.
Proof.
  induction names as [|k names IH].
  - rewrite list_to_set_nil, size_empty. simpl. lia.
  - rewrite list_to_set_cons, size_union_alt, size_singleton.
    assert ((list_to_set names ∖ {[k]} : gset string) ⊆ list_to_set names)
      as Hincl by set_solver.
    apply subseteq_size in Hincl. simpl. lia.
Qed.

(** The store never has more entries than the message. *)
Theorem store_size_bound H :
  (size (DiameterMessage.avps (new_DiameterMessage H))
   <= List.length (decoded_entries H))%nat.
Proof.
  rewrite avps_store_entries, <- size_dom, store_entries_dom, dom_empty_L,
    (left_id_L ∅ (∪)), <- (length_fmap fst).
  apply size_list_to_set_le.
Qed.

(** *** The response builders *)

(** The header the selected builder starts from. *)
Definition response_header_of (command_code : Z) req : HDRItem.t :=
  if decide (command_code = 257) then cea_header else invalid_header req.

(** The selected builder, as its result and the world it leaves. *)
Lemma select_response_pair (command_code : Z) req w :
  select_response command_code req w
  = ((select_response command_code req w).1,
     after_hops w (response_header_of command_code req)).
Proof.
  unfold select_response, response_header_of.
  rewrite cmd_code_responses_lookup. case_decide; simpl.
  - rewrite cea_of_parts.
    by destruct (cea_parts_cases req w)
      as [(v1 & v2 & v3 & v4 & v5 & v6 & _ & ->)|(k & _ & _ & ->)].
  - by rewrite invalid_request_eq.
Qed.

(** Whichever builder is selected, and whether it returns or raises, it
    leaves the connection as it was and moves the state of the library by one
    call of [initializeHops], on the new header. *)
Theorem builder_world (command_code : Z) req w :
  conn (select_response command_code req w).2 = conn w
  /\ hops_state (select_response command_code req w).2
     = (initializeHops (hops_state w)
                       (response_header_of command_code req)).1.
Proof.
  rewrite select_response_pair. unfold after_hops. simpl.
  split; reflexivity.
Qed.

(** The capability-exchange builder raises [KeyError] on the first of the
    six attributes, in the order of lines 101-114, that the request does not
    have. *)
Theorem cea_raises_first_missing req w (present absent : list string)
    (k : string) :
  required_attributes = (present ++ k :: absent)%list ->
  Forall (fun name => is_Some (DiameterMessage.avps req !! name)) present ->
  DiameterMessage.avps req !! k = None ->
  generate_capability_exchange_answer req w
  = (Raise (KeyError k), after_hops w cea_header).
Proof.
  intros Hsplit Hpresent Hnone.
  rewrite cea_of_parts.
  unfold generate_capability_exchange_answer_parts, mbind, M_bind.
  rewrite call_initializeHops_eq. fold cea_header.
  unfold getitem. rewrite result_codes_success.
  unfold required_attributes in Hsplit.
  do 7 (destruct present as [|name present];
        [simplify_eq/=; by rewrite Hnone|];
        apply Forall_cons in Hpresent as [Hv Hpresent];
        destruct Hv as [? Hv]; simplify_eq/=; rewrite Hv; clear Hv; simpl).
Qed.

(** A header object that is a new one but for its command code [c] and for
    the two identifiers, which are those that [initializeHops] assigns in
    the world [w] to the new header object with that command code. *)
Definition new_header_with (c : Z) w H : Prop :=
  HDRItem.ver H = HDRItem.ver HDRItem_new
  /\ HDRItem.flags H = HDRItem.flags HDRItem_new
  /\ HDRItem.len H = HDRItem.len HDRItem_new
  /\ HDRItem.appId H = HDRItem.appId HDRItem_new
  /\ HDRItem.msg H = HDRItem.msg HDRItem_new
  /\ HDRItem.cmd H = c
  /\ (HDRItem.HobByHop H, HDRItem.EndToEnd H)
     = (initializeHops (hops_state w) (HDRItem.set_cmd HDRItem_new c)).2.

(** The response header of either builder, the one it hands to [createRes],
    has the version, flags, length, application id and body of a new header
    object. Its command code is the one of the request in [invalid_request]
    and the code of Capabilities-Exchange in
    [generate_capability_exchange_answer]: nothing but the command code is
    taken from the request, and by [invalid_request] only. *)
Theorem response_header_fields req w H (avps : list hex) w' :
  (invalid_request_parts req w = (Ok (H, avps), w') ->
   invalid_request req w = (Ok (createRes H avps), w')
   /\ new_header_with (DiameterMessage.command_code req) w H)
  /\ (generate_capability_exchange_answer_parts req w = (Ok (H, avps), w') ->
      generate_capability_exchange_answer req w = (Ok (createRes H avps), w')
      /\ new_header_with (dictCOMMANDname2code "Capabilities-Exchange") w H).
Proof.
  split; intros Hparts.
  - split.
    + unfold invalid_request, mbind, M_bind. by rewrite Hparts.
    + rewrite invalid_request_parts_eq in Hparts. inversion Hparts; subst.
      unfold new_header_with, stamped, invalid_header. simpl.
      repeat split; try reflexivity.
      by destruct (initializeHops (hops_state w) _) as [s [h e]].
  - split.
    + by rewrite cea_of_parts, Hparts.
    + destruct (cea_parts_cases req w)
        as [(v1 & v2 & v3 & v4 & v5 & v6 & _ & Heq)|(k & _ & _ & Heq)];
        rewrite Heq in Hparts; [|discriminate].
      inversion Hparts; subst.
      unfold new_header_with, stamped, cea_header. simpl.
      repeat split; try reflexivity.
      by destruct (initializeHops (hops_state w) _) as [s [h e]].
Qed.

End MoreProperties.

(** ** [send_response] and the worker *)

Section WorkerProperties.

Context {L : LibDiameter}.

Implicit Types (w : world) (req : DiameterMessage.t) (H : HDRItem.t).

(** The message object [send_response] makes of the bytes it is given
    (lines 179-181). *)
Definition request_of (data : bytes) : DiameterMessage.t :=
  new_DiameterMessage (stripHdr HDRItem_new (Hex.encode data)).

(** What the selected builder returns for received bytes. *)
Definition response_to (data : bytes) w : result hex :=
  (select_response (DiameterMessage.command_code (request_of data))
                   (request_of data) w).1.

Lemma select_response_split (data : bytes) w :
  select_response (DiameterMessage.command_code (request_of data))
                  (request_of data) w
  = (response_to data w,
     after_hops w (response_header_of
                     (DiameterMessage.command_code (request_of data))
                     (request_of data))).
Proof. unfold response_to. apply select_response_pair. Qed.

(** The two ways of a [send]: it raises when the next event of the script
    is an error, and returns otherwise, with its argument in the log. *)
Lemma send_cases (c : connection) (data : bytes) :
  (head (outgoing c) <> Some SendError
   /\ send c data
      = (Ok tt,
         Connection (incoming c) (tail (outgoing c))
                    (sent c ++ [data])%list (closed c)))
  \/ (exists script : list send_event,
        outgoing c = SendError :: script
        /\ send c data
           = (Raise SocketError,
              Connection (incoming c) script (sent c) (closed c))).
Proof.
  unfold send. destruct (outgoing c) as [|[|] script]; simpl.
  - by left.
  - by left.
  - right. by exists script.
Qed.


Lemma send_response_connection (data : bytes) w r w' :
  send_response data w = (r, w') ->
  incoming (conn w') = incoming (conn w)
  /\ closed (conn w') = closed (conn w)
  /\ outgoing (conn w') `suffix_of` outgoing (conn w)
  /\ match r with
     | Ok _ => exists out : bytes, sent (conn w') = (sent (conn w) ++ [out])%list
     | Raise _ => sent (conn w') = sent (conn w)
     end.
Proof.
  unfold send_response, mbind, M_bind. fold (request_of data).
  rewrite select_response_split.
  destruct (response_to data w) as [response|e];
    [|intros Heq; inversion Heq; subst; by repeat split].
  unfold call_decode_hex, call_send.
  destruct (Hex.decode response) as [out|e];
    cbn [after_hops conn hops_state];
    [|intros Heq; inversion Heq; subst; by repeat split].
  destruct (send_cases (conn w) out) as [[Hhead ->]|(script & Hscript & ->)];
    intros Heq; inversion Heq; subst; cbn [conn incoming sent closed outgoing];
    repeat split.
  - destruct (outgoing (conn w)) as [|ev script]; [done|].
    by apply suffix_cons_r.
  - by exists out.
  - rewrite Hscript. by apply suffix_cons_r.
Qed.

(** The world in which the worker stops, when it does. *)
Definition final_world (o : outcome) : option world :=
  match o with
  | Closed w | Blocked w | Uncaught _ w => Some w
  | OutOfFuel => None
  end.

(** What the worker keeps, however it stops, be it by a [break], in a read
    that never returns, or by an exception that nothing catches, the
    [socket.error] of a [send] included: what was sent before stays sent, in
    front; at most one message is sent for each read of the script; the
    [send] events left are an end of those it started with; and the
    connection is closed exactly when the loop was left by a [break], not
    when the thread died of an exception or hangs in a read. *)
Theorem worker_invariants (fuel : nat) :
  forall w w',
    final_world (handle_request fuel w) = Some w' ->
    sent (conn w) `prefix_of` sent (conn w')
    /\ (List.length (sent (conn w'))
        <= List.length (sent (conn w)) + List.length (incoming (conn w)))%nat
    /\ outgoing (conn w') `suffix_of` outgoing (conn w)
    /\ closed (conn w')
       = match handle_request fuel w with
         | Closed _ => true
         | _ => closed (conn w)
         end.
Proof.
  induction fuel as [|fuel IH]; intros w w' Hfinal; [discriminate|].
  simpl in Hfinal |- *.
  destruct (read_frame (incoming (conn w))) as [[[data|] rest]|] eqn:Hframe.
  - apply read_frame_shorter in Hframe.
    destruct (send_response data (set_incoming w rest)) as [[message|e] w1]
      eqn:Hsend;
      apply send_response_connection in Hsend
        as (Hinc & Hclosed & Hout & Hsent);
      simpl in Hinc, Hclosed, Hout, Hsent.
    + destruct Hsent as [out Hsent].
      destruct (IH w1 w' Hfinal) as (Hprefix & Hlen & Hsuffix & Hflag).
      rewrite Hsent in Hprefix, Hlen. rewrite Hinc in Hlen.
      rewrite length_app in Hlen. simpl in Hlen.
      split; [|split; [|split]].
      * destruct Hprefix as [k Hk]. exists ([out] ++ k)%list.
        by rewrite Hk, <- app_assoc.
      * lia.
      * by etrans.
      * rewrite Hflag, Hclosed. by destruct (handle_request fuel w1).
    + inversion Hfinal; subst. rewrite Hsent, Hclosed.
      split; [done|]. split; [lia|]. split; done.
  - inversion Hfinal; subst. simpl. split; [done|]. split; [lia|]. split; done.
  - inversion Hfinal; subst. simpl. split; [done|]. split; [lia|]. split; done.
Qed.

(** A first read that is neither empty nor a full buffer is a frame. *)
Lemma read_frame_short (data : bytes) (script : list recv_event) :
  data <> [] -> List.length data <> BUFFER_SIZE ->
  read_frame (RecvData data :: script) = Some (Frame data, script).
Proof.
  intros Hne Hsize. simpl. apply Nat.eqb_neq in Hsize. rewrite Hsize. simpl.
  destruct data; [done | reflexivity].
Qed.

(** One request, then the peer shuts the stream down, when the builder
    returns a hex string. If the [send] returns, the worker has sent the
    bytes the string stands for, that message and no other, and goes on to
    the empty read and closes the connection. If the [send] raises
    [socket.error], nothing catches it: the worker ends there, with nothing
    sent, the empty read not made and the connection not closed. *)
Theorem one_request_then_eof (data : bytes) (s : hops)
    (sends : list send_event) (sent0 : list bytes)
    (response : hex) (out : bytes) :
  data <> [] -> List.length data <> BUFFER_SIZE ->
  response_to data (World s (Connection [RecvData []] sends sent0 false))
  = Ok response ->
  Hex.decode response = Ok out ->
  exists s' : hops,
    run_worker
      (World s (Connection [RecvData data; RecvData []] sends sent0 false))
    = match sends with
      | SendError :: script =>
          Uncaught SocketError
                   (World s' (Connection [RecvData []] script sent0 false))
      | _ =>
          Closed (World s' (Connection [] (tail sends)
                                       (sent0 ++ [out])%list true))
      end.
Proof.
  intros Hne Hsize Hresponse Hdecode.
  eexists. unfold run_worker.
  cbn [incoming conn List.length handle_request].
  rewrite read_frame_short by done.
  unfold send_response, mbind, M_bind. fold (request_of data).
  unfold set_incoming, with_incoming. cbn [hops_state conn sent closed outgoing].
  rewrite select_response_split, Hresponse.
  unfold call_decode_hex. rewrite Hdecode.
  unfold call_send, send, after_hops. cbn [hops_state conn sent closed outgoing incoming].
  destruct sends as [|[|] script]; reflexivity.
Qed.

(** A builder that returns a string which is not hex ends the worker: the
    [TypeError] of [decode('hex')] is not caught, [send] has not been called,
    nothing has been sent and the connection stays open. *)
Theorem undecodable_response_ends_worker (fuel : nat) w (data : bytes)
    (rest : list recv_event) (response : hex) (e : exn) :
  read_frame (incoming (conn w)) = Some (Frame data, rest) ->
  response_to data (set_incoming w rest) = Ok response ->
  Hex.decode response = Raise e ->
  exists w',
    handle_request (S fuel) w = Uncaught e w'
    /\ conn w' = Connection rest (outgoing (conn w)) (sent (conn w))
                            (closed (conn w)).
Proof.
  intros Hframe Hresponse Hdecode.
  eexists. simpl. rewrite Hframe.
  unfold send_response, mbind, M_bind. fold (request_of data).
  rewrite select_response_split, Hresponse.
  unfold call_decode_hex. rewrite Hdecode. split; reflexivity.
Qed.

(** A first read of exactly [BUFFER_SIZE] bytes that no [socket.error]
    follows is never answered: the worker stays in the inner loop's [recv],
    with nothing sent and the connection open. *)
Theorem full_read_without_error_blocks (fuel : nat) w (data : bytes)
    (more : list bytes) :
  incoming (conn w) = RecvData data :: map RecvData more ->
  List.length data = BUFFER_SIZE ->
  handle_request (S fuel) w
  = Blocked (World (hops_state w)
                   (Connection [] (outgoing (conn w)) (sent (conn w))
                               (closed (conn w)))).
Proof.
  intros Hscript Hsize. simpl. rewrite Hscript. simpl.
  by rewrite Hsize, Nat.eqb_refl, recv_more_no_error.
Qed.

End WorkerProperties.

(** ** Runs on the sample library, continued *)

Lemma store_keeps_distinct_names_witness :
  DiameterMessage.avps (received cer_request) !! "Vendor-Id" = Some (PyInt 3)
  /\ size (DiameterMessage.avps (received cer_request)) = 6%nat.
Proof.
  destruct (store_keeps_distinct_names
              (stripHdr HDRItem_new (Hex.encode cer_request)))
    as [Hkeeps Hsize].
  - change (NoDup ["Origin-Host"; "Origin-Realm"; "Vendor-Id";
                   "Origin-State-Id"; "Supported-Vendor-Id";
                   "Acct-Application-Id"]).
    compute_done.
  - split; [|exact Hsize].
    apply Hkeeps.
    change (("Vendor-Id", PyInt 3)
            ∈ [("Origin-Host", PyInt 1); ("Origin-Realm", PyInt 2);
               ("Vendor-Id", PyInt 3); ("Origin-State-Id", PyInt 4);
               ("Supported-Vendor-Id", PyInt 5);
               ("Acct-Application-Id", PyInt 6)]).
    do 2 (apply elem_of_cons; right). apply elem_of_cons. by left.
Defined.

Lemma cea_raises_first_missing_witness :
  generate_capability_exchange_answer (received partial_request) (start [])
  = (Raise (KeyError "Vendor-Id"), after_hops (start []) cea_header).
Proof.
  apply (cea_raises_first_missing (received partial_request) (start [])
           ["Origin-Host"; "Origin-Realm"]
           ["Origin-State-Id"; "Supported-Vendor-Id"; "Acct-Application-Id"]
           "Vendor-Id").
  - reflexivity.
  - apply Forall_cons; split; [by eexists|].
    apply Forall_cons; split; [by eexists|]. apply Forall_nil_2.
  - reflexivity.
Defined.

Lemma response_header_fields_witness :
  HDRItem.cmd (stamped (start []) (invalid_header (received unknown_request)))
  = 9999
  /\ HDRItem.cmd (stamped (start []) cea_header) = 257
  /\ HDRItem.appId (stamped (start []) cea_header) = HDRItem.appId HDRItem_new.
Proof.
  destruct (proj1 (response_header_fields (received unknown_request) (start [])
                     (stamped (start [])
                              (invalid_header (received unknown_request)))
                     [encodeAVP "Result-Code" (PyInt 5012)]
                     (after_hops (start [])
                                 (invalid_header (received unknown_request)))))
    as (_ & _ & _ & _ & _ & _ & Hcmd & _); [reflexivity|].
  destruct (proj2 (response_header_fields (received cer_request) (start [])
                     (stamped (start []) cea_header)
                     (cea_avps (PyInt 1) (PyInt 2) (PyInt 3) (PyInt 4)
                               (PyInt 5) (PyInt 6))
                     (after_hops (start []) cea_header)))
    as (_ & _ & _ & _ & Happ & _ & Hcea & _); [reflexivity|].
  split; [exact Hcmd | split; [exact Hcea | exact Happ]].
Defined.

(** An unknown command followed by a capability-exchange request, on a
    connection whose first [send] returns and whose second raises: the worker
    answers the first request and dies of [socket.error] on the second, the
    connection left open. *)
Definition two_requests : world :=
  World (100 : hops)
        (Connection [RecvData unknown_request; RecvData cer_request; RecvData []]
                    [SendOk; SendError] [] false).

Definition two_requests_final : world :=
  World (102 : hops)
        (Connection [RecvData []] []
           [SampleLib.bytes_of
              "0100001c0000270f0000000000000065000000650000010c00001394"]
           false).

Lemma worker_invariants_witness :
  run_worker two_requests = Uncaught SocketError two_requests_final
  /\ (List.length (sent (conn two_requests_final)) <= 0 + 3)%nat
  /\ closed (conn two_requests_final) = false.
Proof.
  assert (run_worker two_requests = Uncaught SocketError two_requests_final)
    as Hrun by reflexivity.
  assert (final_world (handle_request 4 two_requests) = Some two_requests_final)
    as Hfinal by reflexivity.
  destruct (worker_invariants 4 two_requests two_requests_final Hfinal)
    as (_ & Hlen & _ & Hclosed).
  split; [exact Hrun|]. split; [exact Hlen | exact Hclosed].
Defined.

Lemma one_request_then_eof_witness :
  (exists s' : hops,
      run_worker (start [RecvData unknown_request; RecvData []])
      = Closed (World s'
                  (Connection [] []
                     [SampleLib.bytes_of
                        "0100001c0000270f0000000000000065000000650000010c00001394"]
                     true)))
  /\ (exists s' : hops,
        run_worker
          (World (100 : hops)
                 (Connection [RecvData unknown_request; RecvData []]
                             [SendError] [] false))
        = Uncaught SocketError
                   (World s' (Connection [RecvData []] [] [] false))).
Proof.
  split.
  - apply (one_request_then_eof unknown_request (hops_state (start [])) [] []
             "0100001c0000270f0000000000000065000000650000010c00001394"
             (SampleLib.bytes_of
                "0100001c0000270f0000000000000065000000650000010c00001394")).
    + discriminate.
    + apply Nat.eqb_neq. reflexivity.
    + reflexivity.
    + reflexivity.
  - apply (one_request_then_eof unknown_request (hops_state (start []))
             [SendError] []
             "0100001c0000270f0000000000000065000000650000010c00001394"
             (SampleLib.bytes_of
                "0100001c0000270f0000000000000065000000650000010c00001394")).
    + discriminate.
    + apply Nat.eqb_neq. reflexivity.
    + reflexivity.
    + reflexivity.
Defined.

(** The sample library with a [createRes] that returns one character, which
    is no hex string: its length is odd. *)
Definition garbled_lib : LibDiameter :=
  Build_LibDiameter Z (HDRItem.Make 0 0 0 0 0 0 0 "")
                    SampleLib.stripHdr SampleLib.splitMsgAVPs
                    SampleLib.decodeAVP SampleLib.encodeAVP
                    (fun _ _ => "0")
                    SampleLib.initializeHops SampleLib.dictCOMMANDname2code.

Lemma undecodable_response_witness :
  exists w',
    handle_request (L := garbled_lib) 1
      (World (L := garbled_lib) (100 : Z)
             (Connection [RecvData unknown_request] [] [] false))
    = Uncaught (TypeError "Odd-length string") w'
    /\ conn w' = Connection [] [] [] false.
Proof.
  apply (undecodable_response_ends_worker (L := garbled_lib) 0
           (World (L := garbled_lib) (100 : Z)
                  (Connection [RecvData unknown_request] [] [] false))
           unknown_request [] "0").
  - reflexivity.
  - reflexivity.
  - reflexivity.
Defined.

Lemma full_read_blocks_witness :
  handle_request 1 (start [RecvData (repeat Byte.x00 BUFFER_SIZE)])
  = Blocked (start []).
Proof.
  apply (full_read_without_error_blocks 0
           (start [RecvData (repeat Byte.x00 BUFFER_SIZE)])
           (repeat Byte.x00 BUFFER_SIZE) []).
  - reflexivity.
  - apply repeat_length.
Defined.
